(** * Verification-gated Telegram assistant: the phone normaliser, the
      verification gate, the command dispatcher and the webhook handler

    Shallow embedding of [detailsharsham.py] (class [TelegramBot]) and
    [lambdafunction.py] ([lambda_handler]).

    Conventions of the embedding.
    - A Python [str] is the Rocq [string] of its UTF-8 bytes.  The
      operations of the code that depend on the class of a character ([\D],
      [str.strip], [str.lower], [str.capitalize], [int] on a string) are
      embedded for ASCII text, the texts that satisfy [PyStr.isascii]: there
      they are Python's.  On other text they are not: Python also lowers the
      letters beyond ASCII, strips the white space of Unicode such as U+00A0,
      and counts the decimal digits of every script as digits, one per code
      point, while the embedding leaves every byte above 127 as it is and
      takes it for no digit.  The statements on the fallback of the
      normaliser, on the reply to a category token and on the reply to an
      unrecognized command give a text computed by these operations from an
      arbitrary input, and assume [PyStr.isascii] of that input.  The other
      statements either confine the input to ASCII by their hypotheses, or
      relate results of these operations to one another in a way that does
      not depend on the class of the characters beyond ASCII.
    - Python integers are [Z].
    - The services the bot calls (DynamoDB, S3, the Telegram HTTP API, the
      clock) are not reimplemented: their outcome in one invocation is read
      from an [Env] record, and their effects go to an explicit [World]
      (ledger table, scratch directory, log of requests posted to Telegram). *)

From Stdlib Require Import ZArith Ascii String.
From stdpp Require Import gmap strings list.

#[local] Set Warnings "-register-all".
#[local] Open Scope Z_scope.

(* ===================================================================== *)
(** * Python strings *)
(* ===================================================================== *)

Module PyStr.


(** [\d] on the ASCII range. *)
Definition isdigit (c : ascii) : bool :=
  let n := nat_of_ascii c in (48 <=? n)%nat && (n <=? 57)%nat.

(** [str.isspace] on the ASCII range: TAB, LF, VT, FF, CR, the four
    separators 0x1c-0x1f and the space. *)
Definition isspace (c : ascii) : bool :=
  let n := nat_of_ascii c in
  ((9 <=? n)%nat && (n <=? 13)%nat) || ((28 <=? n)%nat && (n <=? 32)%nat).

Definition lower_char (c : ascii) : ascii :=
  let n := nat_of_ascii c in
  if (65 <=? n)%nat && (n <=? 90)%nat then ascii_of_nat (n + 32) else c.

Definition upper_char (c : ascii) : ascii :=
  let n := nat_of_ascii c in
  if (97 <=? n)%nat && (n <=? 122)%nat then ascii_of_nat (n - 32) else c.

Fixpoint filter (p : ascii → bool) (s : string) : string :=
  match s with
  | EmptyString => EmptyString
  | String c s' => if p c then String c (filter p s') else filter p s'
  end.

Fixpoint all (p : ascii → bool) (s : string) : bool :=
  match s with
  | EmptyString => true
  | String c s' => p c && all p s'
  end.

Fixpoint map (f : ascii → ascii) (s : string) : string :=
  match s with
  | EmptyString => EmptyString
  | String c s' => String (f c) (map f s')
  end.

(** [s[:n]] *)
Fixpoint take (n : nat) (s : string) : string :=
  match n, s with
  | S n', String c s' => String c (take n' s')
  | _, _ => EmptyString
  end.

(** [s[n:]] *)
Fixpoint drop (n : nat) (s : string) : string :=
  match n, s with
  | S n', String _ s' => drop n' s'
  | _, _ => s
  end.

(** [s[a:b]] for [0 <= a <= b]. *)
Definition slice (a b : nat) (s : string) : string := take (b - a) (drop a s).

(** [s.startswith(p)] *)
Definition startswith (p s : string) : bool := String.prefix p s.

(** [re.sub(r'\D', '', s)] for an ASCII [s]. *)
Definition re_sub_nondigits (s : string) : string := filter isdigit s.

(** Drop the leading characters that satisfy [p]. *)
Fixpoint lstrip_by (p : ascii → bool) (s : string) : string :=
  match s with
  | String c s' => if p c then lstrip_by p s' else s
  | EmptyString => EmptyString
  end.

(** Drop the leading and the trailing characters that satisfy [p]. *)
Definition strip_by (p : ascii → bool) (s : string) : string :=
  String.rev (lstrip_by p (String.rev (lstrip_by p s))).

(** [s.strip()] for an ASCII [s]. *)
Definition strip (s : string) : string := strip_by isspace s.

(** [s.lower()] for an ASCII [s]. *)
Definition lower (s : string) : string := map lower_char s.

(** [s.capitalize()] for an ASCII [s]. *)
Definition capitalize (s : string) : string :=
  match s with
  | EmptyString => EmptyString
  | String c s' => String (upper_char c) (lower s')
  end.

(** The line feed and the double quote, which the texts below contain, and
    the no-break space U+00A0 (bytes C2 A0), which one of them contains. *)
Definition nl : string := String (ascii_of_nat 10) EmptyString.
Definition dq : string := String (ascii_of_nat 34) EmptyString.
Definition nbsp : string :=
  String (ascii_of_nat 194) (String (ascii_of_nat 160) EmptyString).

(** Value of a decimal digit. *)
Definition digit_value (c : ascii) : Z := Z.of_nat (nat_of_ascii c) - 48.

(** Decimal digits of a non-negative integer, least significant first. *)
Fixpoint digits_rev (fuel : nat) (n : Z) : string :=
  match fuel with
  | O => EmptyString
  | S fuel' =>
      String (ascii_of_nat (Z.to_nat (48 + n mod 10)))
             (if n <? 10 then EmptyString else digits_rev fuel' (n / 10))
  end.

(** [str(n)] for an integer [n]. *)
Definition str_of_int (n : Z) : string :=
  let a := Z.abs n in
  let body := String.rev (digits_rev (S (Z.to_nat (Z.log2 a))) a) in
  if n <? 0 then "-" +:+ body else body.

(** The digits of [int(s)] after the sign: decimal digits, with single
    underscores allowed between two digits. [acc] is the value read so far,
    [after_digit] tells whether the previous character was a digit. *)
Fixpoint int_digits (acc : Z) (after_digit : bool) (s : string) : option Z :=
  match s with
  | EmptyString => if after_digit then Some acc else None
  | String c s' =>
      if isdigit c then int_digits (10 * acc + digit_value c) true s'
      else if Ascii.eqb c "_" then
        (if after_digit then int_digits acc false s' else None)
      else None
  end.

(** The white space [int] skips around the number: TAB, LF, VT, FF, CR and
    the space, without the separators 0x1c-0x1f that [str.strip] removes. *)
Definition isspace_int (c : ascii) : bool :=
  let n := nat_of_ascii c in
  ((9 <=? n)%nat && (n <=? 13)%nat) || (n =? 32)%nat.

(** [int(s)] for an ASCII string [s]; [None] stands for [ValueError]. The
    limit of recent interpreters on the number of digits is not modelled. *)
Definition int_of_str (s : string) : option Z :=
  match strip_by isspace_int s with
  | String "+" r => int_digits 0 false r
  | String "-" r => Z.opp <$> int_digits 0 false r
  | t => int_digits 0 false t
  end.

End PyStr.

(* ===================================================================== *)
(** * [TelegramBot.normalize_phone] *)
(* ===================================================================== *)

(** [normalize_phone] applies [str] to its argument first; the embedding takes
    the string, and each caller applies the [str] of its own argument type. *)
Definition normalize_phone (phone : string) : string :=
  let cleaned := PyStr.re_sub_nondigits phone in
  if bool_decide (String.length cleaned = 10%nat) then
    "+91 " +:+ PyStr.take 5 cleaned +:+ " " +:+ PyStr.drop 5 cleaned
  else if bool_decide (String.length cleaned = 12%nat) && PyStr.startswith "91" cleaned then
    "+91 " +:+ PyStr.slice 2 7 cleaned +:+ " " +:+ PyStr.drop 7 cleaned
  else if bool_decide (String.length cleaned = 13%nat) && PyStr.startswith "+91" cleaned then
    "+91 " +:+ PyStr.slice 3 8 cleaned +:+ " " +:+ PyStr.drop 8 cleaned
  else cleaned.


(* ===================================================================== *)
(** * The services: ledger table, scratch directory, Telegram gateway *)
(* ===================================================================== *)

(** An item of the DynamoDB table, stored under its [chat_id]. *)
Record VerificationRecord := {
  phone_number : string;
  verified_at : string;
}.

(** What a path of the scratch directory [/tmp] names. *)
Inductive node := File | Dir.

(** A request posted to the Telegram HTTP API. *)
Inductive request :=
  | SendMessage (chat_id : Z) (text : string)
  | RequestContact (chat_id : Z) (text : string)
  | SendDocument (chat_id : Z) (path : string) (caption : option string).

Record World := {
  ledger : gmap Z VerificationRecord;
  tmp : gmap string node;
  outbox : list request;
}.

Inductive s3_outcome := Downloaded | NoSuchBucket | NoSuchKey | S3OtherError.
Inductive http_outcome := Delivered | RequestException | HttpOtherError.

(** The outcome, in one invocation, of the calls whose result the code
    branches on. [post_document] covers opening the downloaded file, the POST
    and [raise_for_status]. The POSTs of [send_message] and [request_contact]
    are absent: both catch [RequestException] and branch on nothing. *)
Record Env := {
  get_item_raises : bool;
  put_item_raises : bool;
  now_isoformat : string;
  download_file : s3_outcome;
  post_document : http_outcome;
}.

Inductive exn :=
  | TypeError | AttributeError | KeyError | ValueError
  | JSONDecodeError | IsADirectoryError.

Inductive res (A : Type) :=
  | Ok (a : A)
  | Raise (e : exn).
Arguments Ok {A} a.
Arguments Raise {A} e.

(** Computations on the world that return or raise. *)
Definition M (A : Type) : Type := World → res A * World.

#[global] Instance M_ret : MRet M := λ A a w, (Ok a, w).
#[global] Instance M_bind : MBind M := λ A B f m w,
  match m w with
  | (Ok a, w') => f a w'
  | (Raise e, w') => (Raise e, w')
  end.

Definition raise {A} (e : exn) : M A := λ w, (Raise e, w).

(** An expression that touches no service. *)
Definition lift {A} (r : res A) : M A := λ w, (r, w).

(** [try: body except Exception: handler] *)
Definition try_except {A} (body : M A) (handler : exn → M A) : M A := λ w,
  match body w with
  | (Ok a, w') => (Ok a, w')
  | (Raise e, w') => handler e w'
  end.

(** [try: body finally: cleanup] *)
Definition try_finally {A} (body : M A) (cleanup : M unit) : M A := λ w,
  match body w with
  | (r, w') =>
      match cleanup w' with
      | (Ok _, w'') => (r, w'')
      | (Raise e, w'') => (Raise e, w'')
      end
  end.

Definition post (r : request) : M unit := λ w,
  (Ok (), {| ledger := ledger w; tmp := tmp w; outbox := outbox w ++ [r] |}).

(* ===================================================================== *)
(** * The contact spreadsheet *)
(* ===================================================================== *)

(** A cell read with [dtype=str]: a string, or NaN for an empty cell. *)
Inductive cell := Str (s : string) | NaN.

(** [str(c)] *)
Definition str_of_cell (c : cell) : string :=
  match c with Str s => s | NaN => "nan" end.

(** The data frame: its column labels and its rows in load order, each row
    mapping the labels to its cells. *)
Record DataFrame := {
  columns : gset string;
  rows : list (gmap string cell);
}.

(** [row[label]] for a label of the frame. *)
Definition row_item (row : gmap string cell) (label : string) : cell :=
  default NaN (row !! label).

(** [row.get(label, fallback)] *)
Definition row_get (row : gmap string cell) (label : string) (fallback : string) : cell :=
  default (Str fallback) (row !! label).

(* ===================================================================== *)
(** * [TelegramBot] *)
(* ===================================================================== *)

(** The attributes of the bot that the methods below read after [__init__]:
    the allow-list, a set of normalised numbers, and the contact frame. The
    clients of the services are the [Env] and the [World]. *)
Record TelegramBot := {
  allowed_numbers : gset string;
  contacts_df : DataFrame;
}.

Definition WASTE_MANAGEMENT_PDF_KEY : string := "waste_management.pdf".

Definition send_message (chat_id : Z) (text : string) : M unit :=
  post (SendMessage chat_id text).

Definition request_contact (chat_id : Z) : M unit :=
  post (RequestContact chat_id
    "📱 Please share your contact number to proceed. (Tap the 'Share Contact' button below)").

Definition is_user_verified (env : Env) (chat_id : Z) : M bool := λ w,
  if get_item_raises env then (Ok false, w)
  else (Ok (bool_decide (is_Some (ledger w !! chat_id))), w).

Definition save_verified_user (env : Env) (chat_id : Z) (phone : string) : M unit := λ w,
  if put_item_raises env then (Ok (), w)
  else (Ok (), {| ledger := <[chat_id := {| phone_number := phone;
                                            verified_at := now_isoformat env |}]> (ledger w);
                  tmp := tmp w; outbox := outbox w |}).

Definition verify_contact (bot : TelegramBot) (env : Env)
    (chat_id : Z) (phone : string) : M bool :=
  let formatted_number := normalize_phone phone in
  if bool_decide (formatted_number ∈ allowed_numbers bot) then
    save_verified_user env chat_id formatted_number;;
    mret true
  else mret false.

(** The mask of [get_contacts]:
    [df["Category"].astype(str).str.strip().str.lower() == category.lower()] *)
Definition category_matches (category : string) (row : gmap string cell) : bool :=
  bool_decide (PyStr.lower (PyStr.strip (str_of_cell (row_item row "Category")))
               = PyStr.lower category).

(** One entry of the reply of [get_contacts] (line 246). The second line of
    the entry starts with a space and a no-break space. *)
Definition contact_line (row : gmap string cell) : string :=
  let name := row_get row "Name" "N/A" in
  let number := row_get row "Number" "N/A" in
  let formatted_number := normalize_phone (str_of_cell number) in
  "• **" +:+ str_of_cell name +:+ "**" +:+ PyStr.nl +:+ " " +:+ PyStr.nbsp +:+ "📞 `"
    +:+ formatted_number +:+ "`" +:+ PyStr.nl +:+ PyStr.nl.

Definition contacts_header (category : string) : string :=
  "📌 **" +:+ PyStr.capitalize category +:+ " Contacts:**" +:+ PyStr.nl +:+ PyStr.nl.

Definition no_contacts_text (category : string) : string :=
  "🚫 No contacts found for `" +:+ PyStr.capitalize category
    +:+ "`. Please check the command or spelling!".

(** ["".join(parts)] *)
Definition join (parts : list string) : string := foldr String.append "" parts.

Definition get_contacts (bot : TelegramBot) (chat_id : Z) (category : string) : M unit :=
  if bool_decide ("Category" ∉ columns (contacts_df bot)) then
    send_message chat_id "❌ Internal error: Contact data is missing the 'Category' column."
  else
    let filtered := List.filter (category_matches category) (rows (contacts_df bot)) in
    match filtered with
    | [] => send_message chat_id (no_contacts_text category)
    | _ =>
        let message_parts := contacts_header category :: List.map contact_line filtered in
        send_message chat_id (PyStr.strip (join message_parts))
    end.

(** [os.path.basename] *)
Fixpoint basename (p : string) : string :=
  match p with
  | EmptyString => EmptyString
  | String c p' =>
      if PyStr.all (λ d, negb (Ascii.eqb d "/")) p' then
        (if Ascii.eqb c "/" then p' else p)
      else basename p'
  end.

(** [os.path.exists] *)
Definition os_path_exists (p : string) : M bool := λ w,
  (Ok (bool_decide (is_Some (tmp w !! p))), w).

(** [os.remove] of a path that exists. *)
Definition os_remove (p : string) : M unit := λ w,
  match tmp w !! p with
  | Some Dir => (Raise IsADirectoryError, w)
  | _ => (Ok (), {| ledger := ledger w; tmp := delete p (tmp w); outbox := outbox w |})
  end.

(** [s3_client.download_file] to the local path [p]: on success the object is
    the file at [p]; a directory in the way is an error like any other. *)
Definition s3_download (env : Env) (p : string) : M s3_outcome := λ w,
  match download_file env, tmp w !! p with
  | Downloaded, Some Dir => (Ok S3OtherError, w)
  | Downloaded, _ =>
      (Ok Downloaded, {| ledger := ledger w; tmp := <[p := File]> (tmp w); outbox := outbox w |})
  | o, _ => (Ok o, w)
  end.

(** The caption the request carries: [data['caption']] is set [if caption]. *)
Definition present_caption (caption : option string) : option string :=
  match caption with
  | Some c => if bool_decide (c = "") then None else Some c
  | None => None
  end.

Definition send_document (env : Env) (chat_id : Z) (file_key : string)
    (caption : option string) : M unit :=
  let local_file_path := "/tmp/" +:+ basename file_key in
  try_finally
    (o ← s3_download env local_file_path;
     match o with
     | Downloaded =>
         post (SendDocument chat_id local_file_path (present_caption caption));;
         match post_document env with
         | Delivered => mret ()
         | RequestException =>
             send_message chat_id "❌ An error occurred while sending the document via Telegram."
         | HttpOtherError =>
             send_message chat_id "❌ An unexpected error occurred while processing your document request."
         end
     | NoSuchBucket =>
         send_message chat_id "❌ Error: The file storage bucket could not be found."
     | NoSuchKey =>
         send_message chat_id ("❌ Error: The requested document '" +:+ file_key +:+ "' was not found.")
     | S3OtherError =>
         send_message chat_id "❌ An unexpected error occurred while processing your document request."
     end)
    (present ← os_path_exists local_file_path;
     if present : bool then os_remove local_file_path else mret ()).

(* ===================================================================== *)
(** * The webhook event *)
(* ===================================================================== *)

(** A decoded JSON document, as [json.loads] returns it: [None], [bool],
    [int], [str], [list], [dict]. Numbers with a fraction or an exponent
    (Python floats) are outside the embedding. *)
Inductive json : Type :=
  | JNull
  | JBool (b : bool)
  | JInt (z : Z)
  | JStr (s : string)
  | JArr (l : list json)
  | JObj (m : gmap string json).

(** The value under the key ["body"] of the event, by what [json.loads] does
    with it. *)
Inductive body_value :=
  | NotText
  | Malformed (raw : string)
  | Document (j : json).

(** The event: only its key ["body"] is read. *)
Record Event := { body : option body_value }.

Record Response := { statusCode : Z; response_body : string }.

(** [json.dumps({key: value})] for texts without characters to escape. *)
Definition json_dumps (key value : string) : string :=
  "{" +:+ PyStr.dq +:+ key +:+ PyStr.dq +:+ ": " +:+ PyStr.dq +:+ value +:+ PyStr.dq +:+ "}".

(** [json.loads(event["body"])] *)
Definition json_loads (b : body_value) : res json :=
  match b with
  | NotText => Raise TypeError
  | Malformed _ => Raise JSONDecodeError
  | Document j => Ok j
  end.

(** [v.get(key, fallback)] *)
Definition dict_get (v : json) (key : string) (fallback : json) : res json :=
  match v with
  | JObj m => Ok (default fallback (m !! key))
  | _ => Raise AttributeError
  end.

(** [key in v] for a dict [v] *)
Definition dict_contains (v : json) (key : string) : bool :=
  match v with
  | JObj m => bool_decide (is_Some (m !! key))
  | _ => false
  end.

(** [v[key]] for a string [key] *)
Definition subscript (v : json) (key : string) : res json :=
  match v with
  | JObj m => match m !! key with Some x => Ok x | None => Raise KeyError end
  | _ => Raise TypeError
  end.

(** [int(v)] *)
Definition py_int (v : json) : res Z :=
  match v with
  | JBool b => Ok (if b then 1 else 0)
  | JInt z => Ok z
  | JStr s => match PyStr.int_of_str s with Some z => Ok z | None => Raise ValueError end
  | JNull | JArr _ | JObj _ => Raise TypeError
  end.

(** [v == n] for an integer [n] *)
Definition py_eq_int (v : json) (n : Z) : bool :=
  match v with
  | JInt z => bool_decide (z = n)
  | JBool b => bool_decide ((if b then 1 else 0) = n)
  | _ => false
  end.

(** Truth value of [v] *)
Definition truthy (v : json) : bool :=
  match v with
  | JNull => false
  | JBool b => b
  | JInt z => negb (bool_decide (z = 0))
  | JStr s => negb (bool_decide (s = ""))
  | JArr l => match l with [] => false | _ => true end
  | JObj m => negb (bool_decide (dom m = ∅))
  end.

(** [v.strip().lower()] *)
Definition strip_lower (v : json) : res string :=
  match v with
  | JStr s => Ok (PyStr.lower (PyStr.strip s))
  | _ => Raise AttributeError
  end.

Definition contact_categories : list string :=
  ["auto"; "housekeeping"; "milkman"; "authorities"; "electrician"; "plumber";
   "services"; "paperboy"; "shops"].

Definition help_text : string :=
  "📌 **Available Commands:**" +:+ PyStr.nl +:+
  "- `/housekeeping`" +:+ PyStr.nl +:+
  "- `/auto`" +:+ PyStr.nl +:+
  "- `/milkman`" +:+ PyStr.nl +:+
  "- `/authorities`" +:+ PyStr.nl +:+
  "- `/electrician`" +:+ PyStr.nl +:+
  "- `/plumber`" +:+ PyStr.nl +:+
  "- `/services`" +:+ PyStr.nl +:+
  "- `/shops`" +:+ PyStr.nl +:+
  "- `/paperboy`" +:+ PyStr.nl +:+
  "- `/wastemanagementpdf` (for the PDF guide)" +:+ PyStr.nl +:+ PyStr.nl +:+
  "You can type the command with or without the `/`.".

Definition welcome_back_text : string :=
  "✅ Welcome back! You are already verified. Use `/help` to see available commands.".

Definition unrecognized_text (user_message_text : string) : string :=
  "🤖 Unrecognized command: `" +:+ user_message_text
    +:+ "`. Please use `/help` to see the available options.".

(** [user_message_text[1:] if user_message_text.startswith('/') else
    user_message_text] *)
Definition command_of (user_message_text : string) : string :=
  if PyStr.startswith "/" user_message_text then PyStr.drop 1 user_message_text
  else user_message_text.

Definition respond (code : Z) (key value : string) : M Response :=
  mret {| statusCode := code; response_body := json_dumps key value |}.

Section Handler.

(** [str] of a list or a dict, which Python prints by [repr]; the handler
    only passes it to [normalize_phone]. *)
Variable repr_container : json → string.

(** [str(v)] *)
Definition py_str (v : json) : string :=
  match v with
  | JNull => "None"
  | JBool b => if b then "True" else "False"
  | JInt z => PyStr.str_of_int z
  | JStr s => s
  | JArr _ | JObj _ => repr_container v
  end.

Variable bot : TelegramBot.
Variable env : Env.

(** The branch of the handler for a chat that is not verified. *)
Definition verification_flow (message : json) (chat_id : Z) : M Response :=
  owned ← (if dict_contains message "contact" then
             contact ← lift (subscript message "contact");
             user_id ← lift (dict_get contact "user_id" JNull);
             mret (py_eq_int user_id chat_id)
           else mret false);
  if owned : bool then
    contact ← lift (subscript message "contact");
    user_phone_number ← lift (subscript contact "phone_number");
    ok ← verify_contact bot env chat_id (py_str user_phone_number);
    if ok : bool then
      send_message chat_id
        "✅ You are now verified! You can now use the bot and commands like `/housekeeping`.";;
      respond 200 "message" "User verified successfully."
    else
      send_message chat_id "🚫 Verification failed. Your number is not recognized by our system.";;
      respond 200 "message" "Verification failed: unrecognized number."
  else
    request_contact chat_id;;
    respond 200 "message" "Requesting contact info for unverified user.".

(** The branch of the handler for a verified chat. *)
Definition command_flow (chat_id : Z) (user_message_text : string) : M Response :=
  if bool_decide (user_message_text = "/start") then
    send_message chat_id welcome_back_text;;
    respond 200 "message" "Verified user sent /start."
  else if bool_decide (user_message_text = "") then
    send_message chat_id "Please send a text command. You can use `/help` to see the options.";;
    respond 200 "message" "Non-text message received from verified user."
  else
    let command := command_of user_message_text in
    (if bool_decide (command ∈ contact_categories) then
       get_contacts bot chat_id command
     else if bool_decide (command = "wastemanagementpdf") then
       send_document env chat_id WASTE_MANAGEMENT_PDF_KEY
         (Some "Here is your Waste Management Guide.")
     else if bool_decide (command = "help") then
       send_message chat_id help_text
     else
       send_message chat_id (unrecognized_text user_message_text));;
    respond 200 "message" "Command processed for verified user.".

(** The body of the [try] of [lambda_handler]. *)
Definition handle (event : Event) : M Response :=
  match body event with
  | None => respond 400 "error" "Invalid request format: 'body' key missing."
  | Some b =>
      decoded ← try_except (j ← lift (json_loads b); mret (Some j))
                  (λ e, match e with JSONDecodeError => mret None | _ => raise e end);
      match decoded with
      | None => respond 400 "error" "Invalid JSON in request body."
      | Some j =>
          message ← lift (dict_get j "message" (JObj ∅));
          chat ← lift (dict_get message "chat" (JObj ∅));
          chat_id_raw ← lift (dict_get chat "id" JNull);
          match chat_id_raw with
          | JNull => respond 400 "error" "Chat ID not found in message."
          | _ =>
              chat_id ← lift (py_int chat_id_raw);
              text ← lift (dict_get message "text" (JStr ""));
              user_message_text ← lift (strip_lower text);
              verified ← is_user_verified env chat_id;
              if verified : bool then command_flow chat_id user_message_text
              else verification_flow message chat_id
          end
      end
  end.

(** The [except Exception] clause of [lambda_handler]. *)
Definition report_failure (event : Event) : M Response :=
  try_except
    (error_chat_id ←
       match body event with
       | Some b =>
           try_except
             (j ← lift (json_loads b);
              message ← lift (dict_get j "message" (JObj ∅));
              chat ← lift (dict_get message "chat" (JObj ∅));
              lift (dict_get chat "id" JNull))
             (λ e, match e with JSONDecodeError => mret JNull | _ => raise e end)
       | None => mret JNull
       end;
     if truthy error_chat_id then
       chat_id ← lift (py_int error_chat_id);
       send_message chat_id
         "Sorry, an unexpected error occurred. The issue has been logged. Please try again later."
     else mret ())
    (λ _, mret ());;
  respond 500 "error" "Internal Server Error".

Definition lambda_handler (event : Event) : M Response :=
  try_except (handle event) (λ _, report_failure event).

End Handler.

(* ===================================================================== *)
(** * Sample data *)
(* ===================================================================== *)

Definition sample_env : Env :=
  {| get_item_raises := false; put_item_raises := false;
     now_isoformat := "2025-01-01T00:00:00";
     download_file := Downloaded; post_document := Delivered |}.

(** The services answer as in [sample_env], but [put_item] raises. *)
Definition failing_put_env : Env :=
  {| get_item_raises := false; put_item_raises := true;
     now_isoformat := "2025-01-01T00:00:00";
     download_file := Downloaded; post_document := Delivered |}.

(** The services answer as in [sample_env], but the object key is missing. *)
Definition missing_key_env : Env :=
  {| get_item_raises := false; put_item_raises := false;
     now_isoformat := "2025-01-01T00:00:00";
     download_file := NoSuchKey; post_document := Delivered |}.

Definition sample_df : DataFrame :=
  {| columns := {[ "Category"; "Name"; "Number" ]};
     rows :=
       [ {[ "Category" := Str " Auto "; "Name" := Str "Ravi"; "Number" := Str "9876543210" ]};
         {[ "Category" := Str "plumber"; "Name" := Str "Sam"; "Number" := Str "919876543211" ]};
         {[ "Category" := Str "AUTO"; "Name" := Str "Kiran"; "Number" := Str "+91 98765-43212" ]} ] |}.

Definition sample_bot : TelegramBot :=
  {| allowed_numbers := {[ "+91 98765 43210" ]}; contacts_df := sample_df |}.



Definition empty_world : World := {| ledger := ∅; tmp := ∅; outbox := [] |}.

(** Chat 5 has a record in the ledger. *)
Definition verified_world : World :=
  {| ledger := {[ 5 := {| phone_number := "+91 98765 43210";
                          verified_at := "2024-12-31T09:30:00" |} ]};
     tmp := ∅; outbox := [] |}.

(** The update [{"message": {"chat": {"id": chat_id}, ...fields}}]. *)
Definition update (chat_id : json) (fields : gmap string json) : Event :=
  {| body := Some (Document (JObj {[ "message" :=
       JObj (<["chat" := JObj {[ "id" := chat_id ]}]> fields) ]})) |}.

Definition text_update (chat_id : Z) (text : string) : Event :=
  update (JInt chat_id) {[ "text" := JStr text ]}.

Definition contact_update (chat_id : Z) (phone : string) : Event :=
  update (JInt chat_id)
    {[ "contact" := JObj {[ "user_id" := JInt chat_id; "phone_number" := JStr phone ]} ]}.

(** [str] of containers, for the samples, none of which holds one. *)
Definition no_repr (v : json) : string := "".

(* ===================================================================== *)
(** * Vocabulary of the statements *)
(* ===================================================================== *)

(** What lines 38-53 of [lambda_handler] read from a well-formed event: the
    message, the chat id as an integer, and the text as sent. *)
Definition incoming (event : Event) (message : json) (chat_id : Z) (raw_text : string) : Prop :=
  ∃ j chat chat_id_raw,
    body event = Some (Document j)
    ∧ dict_get j "message" (JObj ∅) = Ok message
    ∧ dict_get message "chat" (JObj ∅) = Ok chat
    ∧ dict_get chat "id" JNull = Ok chat_id_raw
    ∧ chat_id_raw ≠ JNull
    ∧ py_int chat_id_raw = Ok chat_id
    ∧ dict_get message "text" (JStr "") = Ok (JStr raw_text).








(** The world [w] after the request [r] has been posted. *)
Definition posted (w : World) (r : request) : World :=
  {| ledger := ledger w; tmp := tmp w; outbox := outbox w ++ [r] |}.

(** The answer of the handler to a processed update. *)
Definition ok_response (note : string) : Response :=
  {| statusCode := 200; response_body := json_dumps "message" note |}.

(** [m] takes every world to a world related to it by [R], whether it
    returns or raises. *)
Definition maintains (R : World → World → Prop) {A} (m : M A) : Prop :=
  ∀ w, R w (m w).2.

(** The requests that are not a contact-share challenge to chat [c]. *)
Definition no_challenge (c : Z) (r : request) : Prop :=
  ∀ text, r ≠ RequestContact c text.

(** From [w] to [w']: no record has left the ledger, and the requests posted
    in between all satisfy [P]. *)
Definition grows (P : request → Prop) (w w' : World) : Prop :=
  dom (ledger w) ⊆ dom (ledger w')
  ∧ ∃ new, outbox w' = outbox w ++ new ∧ Forall P new.

(* ===================================================================== *)
(** * Loading the sheets at cold start *)
(* ===================================================================== *)

(** What downloading a sheet and reading it gives: the frame as it stands
    after [read_excel(file_path, dtype=str)] and the strip of its labels, or
    the exception raised on the way. Sheets whose stripped labels collide are
    outside the embedding. *)
Inductive sheet_outcome :=
  | Sheet (df : DataFrame)
  | SheetNoSuchBucket
  | SheetNoSuchKey
  | SheetOtherError.

(** The environment variable [S3_BUCKET_NAME] and the two sheets of the
    bucket, [allowed_users.xlsx] and [contacts.xlsx]. *)
Record Storage := {
  S3_BUCKET_NAME : option string;
  allowed_users_xlsx : sheet_outcome;
  contacts_xlsx : sheet_outcome;
}.

(** [not self.S3_BUCKET_NAME] *)
Definition bucket_unset (st : Storage) : bool :=
  match S3_BUCKET_NAME st with
  | None => true
  | Some b => bool_decide (b = "")
  end.

Definition load_allowed_users_from_s3 (st : Storage) : gset string :=
  if bucket_unset st then ∅
  else
    match allowed_users_xlsx st with
    | Sheet df =>
        if bool_decide ("Number" ∉ columns df) then ∅
        else
          list_to_set
            (List.map (λ row, normalize_phone (str_of_cell (row_item row "Number")))
                      (rows df))
    | SheetNoSuchBucket | SheetNoSuchKey | SheetOtherError => ∅
    end.

(** [pd.DataFrame(columns=["Category", "Name", "Number"])] *)
Definition empty_contacts : DataFrame :=
  {| columns := {[ "Category"; "Name"; "Number" ]}; rows := [] |}.

Definition load_contacts_from_s3 (st : Storage) : DataFrame :=
  if bucket_unset st then empty_contacts
  else
    match contacts_xlsx st with
    | Sheet df => df
    | SheetNoSuchBucket | SheetNoSuchKey | SheetOtherError => empty_contacts
    end.

(** The data [__init__] loads, once the token is there and the clients of
    the services are built (lines 45-46). *)
Definition cold_start (st : Storage) : TelegramBot :=
  {| allowed_numbers := load_allowed_users_from_s3 st;
     contacts_df := load_contacts_from_s3 st |}.

(* ===================================================================== *)
(** * More sample data *)
(* ===================================================================== *)

(** An allow-list sheet with one number and one empty cell. *)
Definition sample_allowed_sheet : DataFrame :=
  {| columns := {[ "Name"; "Number" ]};
     rows := [ {[ "Name" := Str "Ravi"; "Number" := Str "98765 43210" ]};
               {[ "Name" := Str "Asha"; "Number" := NaN ]} ] |}.

Definition sample_storage : Storage :=
  {| S3_BUCKET_NAME := Some "harsham-data";
     allowed_users_xlsx := Sheet sample_allowed_sheet;
     contacts_xlsx := Sheet sample_df |}.

(** The bucket is set, but neither sheet can be fetched. *)
Definition broken_storage : Storage :=
  {| S3_BUCKET_NAME := Some "harsham-data";
     allowed_users_xlsx := SheetNoSuchKey;
     contacts_xlsx := SheetNoSuchBucket |}.

(* ===================================================================== *)
(** * Vocabulary of the further statements *)
(* ===================================================================== *)

(** The chat a request is addressed to. *)
Definition request_chat (r : request) : Z :=
  match r with
  | SendMessage chat_id _ | RequestContact chat_id _ | SendDocument chat_id _ _ => chat_id
  end.

(** The chat id of the update as the handler reads it: the body decodes, the
    path [message.chat.id] can be followed and [int] converts what is there. *)
Definition event_chat_id (event : Event) : option Z :=
  match body event with
  | Some (Document j) =>
      match dict_get j "message" (JObj ∅) with
      | Ok message =>
          match dict_get message "chat" (JObj ∅) with
          | Ok chat =>
              match dict_get chat "id" JNull with
              | Ok chat_id_raw =>
                  match py_int chat_id_raw with Ok c => Some c | Raise _ => None end
              | Raise _ => None
              end
          | Raise _ => None
          end
      | Raise _ => None
      end
  | _ => None
  end.

(** The requests the handler refuses: no body, a body that is not JSON, or
    an update in which [message.chat.id] is absent or null. *)
Definition invalid_request (event : Event) : Prop :=
  body event = None
  ∨ (∃ raw, body event = Some (Malformed raw))
  ∨ (∃ j message chat,
       body event = Some (Document j)
       ∧ dict_get j "message" (JObj ∅) = Ok message
       ∧ dict_get message "chat" (JObj ∅) = Ok chat
       ∧ dict_get chat "id" JNull = Ok JNull).

(** Every record of the ledger carries a number of the allow-list. *)
Definition ledger_allowed (bot : TelegramBot) (w : World) : Prop :=
  ∀ c rec, ledger w !! c = Some rec → phone_number rec ∈ allowed_numbers bot.

(** A computation that returns does so with a value that satisfies [Q]. *)
Definition returns {A} (Q : A → Prop) (m : M A) : Prop :=
  ∀ w a w', m w = (Ok a, w') → Q a.

(** From [w] to [w']: the ledger is the same, and so is every path of the
    scratch directory other than [p]. *)
Definition frame_except (p : string) (w w' : World) : Prop :=
  ledger w' = ledger w ∧ ∀ q, q ≠ p → tmp w' !! q = tmp w !! q.

(** From [w] to [w']: the ledger is the same. *)
Definition keeps_ledger (w w' : World) : Prop := ledger w' = ledger w.

(** From [w] to [w']: if every record carried an allow-listed number, every
    record still does. *)
Definition keeps_allowed (bot : TelegramBot) (w w' : World) : Prop :=
  ledger_allowed bot w → ledger_allowed bot w'.

(** The requests addressed to chat [c]. *)
Definition to_chat (c : Z) (r : request) : Prop := request_chat r = c.

(** [needle in haystack] *)
Fixpoint contains (needle haystack : string) : bool :=
  String.prefix needle haystack
  || match haystack with
     | EmptyString => false
     | String _ rest => contains needle rest
     end.

(** The canonical form of the ten digits [D]. *)
Definition canonical (D : string) : string :=
  "+91 " +:+ PyStr.take 5 D +:+ " " +:+ PyStr.drop 5 D.

(* ===================================================================== *)
(** * Properties of the phone normaliser *)
(* ===================================================================== *)

Lemma filter_all_id (p : ascii → bool) (s : string) :
  PyStr.all p s = true → PyStr.filter p s = s.
Proof.
  induction s as [|c s IH]; simpl; [done|].
  intros [Hc Hs]%andb_true_iff. rewrite Hc. by rewrite IH.
Qed.

Lemma all_filter (p : ascii → bool) (s : string) :
  PyStr.all p (PyStr.filter p s) = true.
Proof.
  induction s as [|c s IH]; simpl; [done|].
  destruct (p c) eqn:Hc; simpl; [by rewrite Hc|done].
Qed.

(** The stripped form holds digits only, so it never starts with a plus. *)
Lemma cleaned_never_plus (phone : string) :
  PyStr.startswith "+91" (PyStr.re_sub_nondigits phone) = false.
Proof.
  unfold PyStr.re_sub_nondigits, PyStr.startswith.
  pose proof (all_filter PyStr.isdigit phone) as H.
  destruct (PyStr.filter PyStr.isdigit phone) as [|c s]; [done|].
  simpl in H. apply andb_true_iff in H as [Hc _].
  change (String.prefix "+91" (String c s))
    with (if ascii_dec "+" c then String.prefix "91" s else false).
  destruct (ascii_dec "+" c) as [<-|]; [by vm_compute in Hc|done].
Qed.

Lemma length_ten (s : string) :
  String.length s = 10%nat →
  ∃ a b c d e f g h i j,
    s = String a (String b (String c (String d (String e
       (String f (String g (String h (String i (String j ""))))))))).
Proof.
  intros H.
  do 10 (destruct s as [|? s]; [discriminate H|]).
  destruct s; [|discriminate H]. by do 10 eexists.
Qed.

(** C3. A string D of exactly ten digits is normalised to the fixed prefix,
    the first five digits, a space and the last five digits; D prefixed
    with the country code "91" and D prefixed with "+91" are normalised to
    the same canonical string. *)
Theorem normalize_phone_ten_digits (D : string) :
  String.length D = 10%nat →
  PyStr.all PyStr.isdigit D = true →
  normalize_phone D = "+91 " +:+ PyStr.take 5 D +:+ " " +:+ PyStr.drop 5 D
  ∧ normalize_phone ("91" +:+ D) = normalize_phone D
  ∧ normalize_phone ("+91" +:+ D) = normalize_phone D.
Proof.
  intros Hlen Hdig.
  assert (Hc : PyStr.re_sub_nondigits D = D) by by apply filter_all_id.
  assert (Hc' : PyStr.re_sub_nondigits ("91" +:+ D) = "91" +:+ D).
  { change ("91" +:+ D) with (String "9" (String "1" D)).
    apply filter_all_id. exact Hdig. }
  assert (Hc'' : PyStr.re_sub_nondigits ("+91" +:+ D) = "91" +:+ D).
  { change ("+91" +:+ D) with (String "+" (String "9" (String "1" D))).
    change ("91" +:+ D) with (String "9" (String "1" D)).
    unfold PyStr.re_sub_nondigits. simpl. do 2 f_equal. by apply filter_all_id. }
  unfold normalize_phone. rewrite Hc, Hc', Hc''.
  destruct (length_ten D Hlen) as (a&b&c&d&e&f&g&h&i&j&->).
  by repeat split.
Qed.

Lemma normalize_phone_ten_digits_witness :
  normalize_phone "9876543210" = "+91 98765 43210"
  ∧ normalize_phone "919876543210" = "+91 98765 43210"
  ∧ normalize_phone "+919876543210" = "+91 98765 43210".
Proof.
  destruct (normalize_phone_ten_digits "9876543210" eq_refl eq_refl) as (H1 & H2 & H3).
  split; [exact H1|]. split; [exact (eq_trans H2 H1) | exact (eq_trans H3 H1)].
Defined.



(* ===================================================================== *)
(** * Relations that every step of a computation maintains *)
(* ===================================================================== *)

Section Maintains.

Variable R : World → World → Prop.
Context `{!PreOrder R}.

Lemma maintains_ret {A} (a : A) : maintains R (mret a).
Proof. intros w. reflexivity. Qed.

Lemma maintains_raise {A} (e : exn) : maintains R (@raise A e).
Proof. intros w. reflexivity. Qed.

Lemma maintains_lift {A} (r : res A) : maintains R (lift r).
Proof. intros w. reflexivity. Qed.

Lemma maintains_bind {A B} (m : M A) (f : A → M B) :
  maintains R m → (∀ a, maintains R (f a)) → maintains R (m ≫= f).
Proof.
  intros Hm Hf w. unfold mbind, M_bind. specialize (Hm w).
  destruct (m w) as [[a|e] w1]; simpl in *; [|done].
  etrans; [exact Hm | apply Hf].
Qed.

Lemma maintains_try_except {A} (m : M A) (h : exn → M A) :
  maintains R m → (∀ e, maintains R (h e)) → maintains R (try_except m h).
Proof.
  intros Hm Hh w. unfold try_except. specialize (Hm w).
  destruct (m w) as [[a|e] w1]; simpl in *; [done|].
  etrans; [exact Hm | apply Hh].
Qed.

Lemma maintains_try_finally {A} (m : M A) (c : M unit) :
  maintains R m → maintains R c → maintains R (try_finally m c).
Proof.
  intros Hm Hc w. unfold try_finally. specialize (Hm w).
  destruct (m w) as [r w1]; simpl in *. specialize (Hc w1).
  destruct (c w1) as [[[]|e] w2]; simpl in *; by etrans.
Qed.

Lemma maintains_respond (code : Z) (key value : string) :
  maintains R (respond code key value).
Proof. apply maintains_ret. Qed.

End Maintains.

Ltac maintains_step :=
  lazymatch goal with
  | |- maintains _ (mret _) => apply maintains_ret; apply _
  | |- maintains _ (raise _) => apply maintains_raise; apply _
  | |- maintains _ (lift _) => apply maintains_lift; apply _
  | |- maintains _ (respond _ _ _) => apply maintains_respond; apply _
  | |- maintains _ (_ ≫= _) => apply maintains_bind; [apply _| |intros ?]
  | |- maintains _ (try_except _ _) => apply maintains_try_except; [apply _| |intros ?]
  | |- maintains _ (try_finally _ _) => apply maintains_try_finally; [apply _|..]
  | |- maintains _ (if ?b then _ else _) => destruct b
  | |- maintains _ (match ?x with _ => _ end) => destruct x
  end.

(* ===================================================================== *)
(** * The verification gate *)
(* ===================================================================== *)

#[local] Instance grows_preorder (P : request → Prop) : PreOrder (grows P).
Proof.
  split.
  - intros w. split; [done|]. exists []. by rewrite app_nil_r.
  - intros w1 w2 w3 [Hl1 (n1 & Ho1 & Hn1)] [Hl2 (n2 & Ho2 & Hn2)].
    split; [set_solver|]. exists (n1 ++ n2).
    rewrite Ho2, Ho1, app_assoc. split; [done|]. by apply Forall_app.
Qed.

Section Gate.

Variable P : request → Prop.

Lemma grows_post (r : request) : P r → maintains (grows P) (post r).
Proof.
  intros Hr w. split; [done|]. exists [r]. split; [done|]. by constructor.
Qed.

Lemma grows_send_message (chat_id : Z) (text : string) :
  P (SendMessage chat_id text) → maintains (grows P) (send_message chat_id text).
Proof. apply grows_post. Qed.

Lemma grows_save_verified_user (env : Env) (chat_id : Z) (phone : string) :
  maintains (grows P) (save_verified_user env chat_id phone).
Proof.
  intros w. unfold save_verified_user.
  destruct (put_item_raises env); simpl; [reflexivity|].
  split; simpl; [rewrite dom_insert_L; set_solver|].
  exists []. by rewrite app_nil_r.
Qed.

Lemma grows_same_ledger_outbox (w : World) (t : gmap string node) :
  grows P w {| ledger := ledger w; tmp := t; outbox := outbox w |}.
Proof. split; [done|]. exists []. by rewrite app_nil_r. Qed.

End Gate.

Ltac run :=
  unfold mbind, M_bind, mret, M_ret, try_except, try_finally, lift, raise, respond,
    send_message, request_contact, post in *; simpl in *.

Section HandlerFacts.

Variable repr_container : json → string.
Variable bot : TelegramBot.
Variable env : Env.

Abbreviation handle := (handle repr_container bot env).
Abbreviation command_flow := (command_flow bot env).
Abbreviation verification_flow := (verification_flow repr_container bot env).

(** On a well-formed event the handler asks the ledger and enters one of
    the two flows with the stripped, lowercased text. *)
Lemma handle_incoming event message chat_id raw_text w :
  incoming event message chat_id raw_text →
  handle event w =
    (verified ← is_user_verified env chat_id;
     if verified : bool
     then command_flow chat_id (PyStr.lower (PyStr.strip raw_text))
     else verification_flow message chat_id) w.
Proof.
  intros (j & chat & raw_id & Hb & Hm & Hc & Hi & Hnn & Hint & Ht).
  unfold handle. rewrite Hb. run. rewrite Hm, Hc, Hi.
  destruct raw_id; [done|..]; by rewrite Hint, Ht.
Qed.

(** Otherwise the handler answers or raises without touching the world. *)
Lemma handle_cases event w :
  (∃ r, handle event w = (r, w))
  ∨ ∃ message chat_id raw_text, incoming event message chat_id raw_text.
Proof.
  destruct (body event) as [[|raw|j]|] eqn:Hb;
    [left; unfold handle; rewrite Hb; eexists; reflexivity..| |
     left; unfold handle; rewrite Hb; eexists; reflexivity].
  destruct (dict_get j "message" (JObj ∅)) as [message|e] eqn:Hm;
    [|left; unfold handle; rewrite Hb; run; rewrite Hm; eauto].
  destruct (dict_get message "chat" (JObj ∅)) as [chat|e] eqn:Hc;
    [|left; unfold handle; rewrite Hb; run; rewrite Hm, Hc; eauto].
  destruct (dict_get chat "id" JNull) as [raw_id|e] eqn:Hi;
    [|left; unfold handle; rewrite Hb; run; rewrite Hm, Hc, Hi; eauto].
  assert (raw_id = JNull ∨ raw_id ≠ JNull) as [->|Hnn]
    by (destruct raw_id; auto; right; discriminate).
  { left. unfold handle. rewrite Hb. run. rewrite Hm, Hc, Hi. eauto. }
  destruct (py_int raw_id) as [chat_id|e] eqn:Hint.
  2:{ left. unfold handle. rewrite Hb. run. rewrite Hm, Hc, Hi.
      destruct raw_id; [done|..]; rewrite Hint; eauto. }
  destruct (dict_get message "text" (JStr "")) as [text|e] eqn:Ht.
  2:{ left. unfold handle. rewrite Hb. run. rewrite Hm, Hc, Hi.
      destruct raw_id; [done|..]; rewrite Hint, Ht; eauto. }
  destruct (strip_lower text) as [t|e] eqn:Hs.
  2:{ left. unfold handle. rewrite Hb. run. rewrite Hm, Hc, Hi.
      destruct raw_id; [done|..]; rewrite Hint, Ht, Hs; eauto. }
  right. destruct text; try discriminate Hs.
  exists message, chat_id, s. by exists j, chat, raw_id.
Qed.

End HandlerFacts.

Section Flows.

Variable P : request → Prop.
Hypothesis P_message : ∀ c t, P (SendMessage c t).
Hypothesis P_document : ∀ c p cap, P (SendDocument c p cap).

Variable repr_container : json → string.
Variable bot : TelegramBot.
Variable env : Env.

Lemma grows_is_user_verified chat_id :
  maintains (grows P) (is_user_verified env chat_id).
Proof.
  intros w. unfold is_user_verified.
  destruct (get_item_raises env); reflexivity.
Qed.

Lemma grows_verify_contact chat_id phone :
  maintains (grows P) (verify_contact bot env chat_id phone).
Proof.
  unfold verify_contact. repeat maintains_step.
  apply grows_save_verified_user.
Qed.

Lemma grows_get_contacts chat_id category :
  maintains (grows P) (get_contacts bot chat_id category).
Proof.
  unfold get_contacts. repeat maintains_step. all: by apply grows_send_message.
Qed.

Lemma grows_os_remove p : maintains (grows P) (os_remove p).
Proof.
  intros w. unfold os_remove.
  destruct (tmp w !! p) as [[]|]; simpl;
    first [reflexivity | apply grows_same_ledger_outbox].
Qed.

Lemma grows_s3_download p : maintains (grows P) (s3_download env p).
Proof.
  intros w. unfold s3_download.
  destruct (download_file env), (tmp w !! p) as [[]|]; simpl;
    first [reflexivity | apply grows_same_ledger_outbox].
Qed.

Lemma grows_send_document chat_id file_key caption :
  maintains (grows P) (send_document env chat_id file_key caption).
Proof.
  unfold send_document. maintains_step.
  - maintains_step; [apply grows_s3_download|].
    repeat maintains_step.
    all: try by apply grows_send_message.
    by apply grows_post.
  - maintains_step; [intros w; reflexivity|].
    repeat maintains_step. apply grows_os_remove.
Qed.

Lemma grows_command_flow chat_id text :
  maintains (grows P) (command_flow bot env chat_id text).
Proof.
  unfold command_flow. repeat maintains_step.
  all: try by apply grows_send_message.
  - apply grows_get_contacts.
  - apply grows_send_document.
Qed.

Lemma grows_report_failure event :
  maintains (grows P) (report_failure event).
Proof.
  unfold report_failure. repeat maintains_step. all: by apply grows_send_message.
Qed.

Lemma grows_verification_flow message chat_id :
  (∀ text, P (RequestContact chat_id text)) →
  maintains (grows P) (verification_flow repr_container bot env message chat_id).
Proof.
  intros HP. unfold verification_flow. repeat maintains_step.
  all: try by apply grows_send_message.
  all: try by apply grows_post.
  apply grows_verify_contact.
Qed.

End Flows.

Section VerifiedIsTerminal.

Variable repr_container : json → string.
Variable bot : TelegramBot.
Variable env : Env.

Lemma is_user_verified_true c w :
  (is_user_verified env c w).1 = Ok true ↔
  get_item_raises env = false ∧ is_Some (ledger w !! c).
Proof.
  unfold is_user_verified. destruct (get_item_raises env); simpl.
  - split; [discriminate|]. by intros [? _].
  - split.
    + intros [= H%bool_decide_eq_true]. done.
    + intros [_ H]. by rewrite bool_decide_eq_true_2.
Qed.

Lemma no_challenge_message c : ∀ chat_id t, no_challenge c (SendMessage chat_id t).
Proof. by intros ???. Qed.

Lemma no_challenge_document c :
  ∀ chat_id p cap, no_challenge c (SendDocument chat_id p cap).
Proof. by intros ????. Qed.

Lemma grows_handle c event w :
  (is_user_verified env c w).1 = Ok true →
  grows (no_challenge c) w (handle repr_container bot env event w).2.
Proof.
  intros Hver.
  destruct (handle_cases repr_container bot env event w)
    as [[r ->]|(message & chat_id & raw & Hin)]; [reflexivity|].
  rewrite (handle_incoming _ _ _ _ _ _ _ _ Hin).
  apply is_user_verified_true in Hver as [Hget Hsome].
  unfold mbind, M_bind, is_user_verified. rewrite Hget.
  case_bool_decide as Hc.
  - apply grows_command_flow;
      [apply no_challenge_message | apply no_challenge_document].
  - apply grows_verification_flow; [apply no_challenge_message|].
    intros text text' [= ->]. done.
Qed.

Lemma grows_lambda_handler c event w :
  (is_user_verified env c w).1 = Ok true →
  grows (no_challenge c) w (lambda_handler repr_container bot env event w).2.
Proof.
  intros Hver. unfold lambda_handler, try_except.
  pose proof (grows_handle c event w Hver) as H1.
  destruct (handle repr_container bot env event w) as [[r|e] w1]; [done|].
  etrans; [exact H1|].
  apply grows_report_failure. apply no_challenge_message.
Qed.

End VerifiedIsTerminal.

(** C2. If the verification check reports chat [c] verified, then whatever
    event the handler processes, none of the requests it posts is a
    contact-share challenge to [c], and afterwards the check still reports
    [c] verified: the handler never takes a chat from verified back to
    unverified. *)
Theorem verified_chat_never_challenged
    (repr_container : json → string) (bot : TelegramBot) (env : Env)
    (event : Event) (w : World) (c : Z) :
  (is_user_verified env c w).1 = Ok true →
  let w' := (lambda_handler repr_container bot env event w).2 in
  (∃ new, outbox w' = outbox w ++ new ∧ ∀ text, RequestContact c text ∉ new)
  ∧ (is_user_verified env c w').1 = Ok true.
Proof.
  intros Hver w'.
  destruct (grows_lambda_handler repr_container bot env c event w Hver)
    as [Hdom (new & Hout & Hnew)].
  fold w' in Hdom, Hout. split.
  - exists new. split; [done|]. intros text Hin.
    rewrite Forall_forall in Hnew. by apply (Hnew _ Hin text).
  - apply is_user_verified_true in Hver as [Hget Hsome].
    apply is_user_verified_true. split; [done|].
    apply elem_of_dom, Hdom, elem_of_dom, Hsome.
Qed.

Lemma verified_chat_never_challenged_witness :
  (∃ new,
     outbox (lambda_handler no_repr sample_bot sample_env
               (text_update 5 "hello") verified_world).2
     = outbox verified_world ++ new
     ∧ ∀ text, RequestContact 5 text ∉ new)
  ∧ (is_user_verified sample_env 5
       (lambda_handler no_repr sample_bot sample_env
          (text_update 5 "hello") verified_world).2).1 = Ok true.
Proof.
  apply (verified_chat_never_challenged no_repr sample_bot sample_env
           (text_update 5 "hello") verified_world 5).
  reflexivity.
Defined.

(** What [verify_contact] does: it returns whether the normalised number is
    in the allow-list; when it is not, the world is untouched; when it is,
    the record is in the ledger if [put_item] returned, and the world is
    untouched if [put_item] raised. *)
Lemma verify_contact_spec (bot : TelegramBot) (env : Env) (c : Z) (phone : string) (w : World) :
  (verify_contact bot env c phone w).1
    = Ok (bool_decide (normalize_phone phone ∈ allowed_numbers bot))
  ∧ (normalize_phone phone ∉ allowed_numbers bot →
     (verify_contact bot env c phone w).2 = w)
  ∧ (normalize_phone phone ∈ allowed_numbers bot →
     put_item_raises env = false →
     ledger (verify_contact bot env c phone w).2 !! c
       = Some {| phone_number := normalize_phone phone;
                 verified_at := now_isoformat env |})
  ∧ (normalize_phone phone ∈ allowed_numbers bot →
     put_item_raises env = true →
     (verify_contact bot env c phone w).2 = w).
Proof.
  unfold verify_contact, save_verified_user. case_bool_decide as Hin; run.
  - destruct (put_item_raises env); simpl; repeat split; try done.
    intros _ _. apply lookup_insert_eq.
  - repeat split; done.
Qed.

(** A failed read of the ledger is reported as not verified. *)
Lemma is_user_verified_read_failure (env : Env) (c : Z) (w : World) :
  get_item_raises env = true → is_user_verified env c w = (Ok false, w).
Proof. intros H. unfold is_user_verified. by rewrite H. Qed.

(** C1, at the input where the code departs from it: the number of chat 5 is
    in the allow-list and [put_item] raises. [verify_contact] returns [True],
    and the ledger holds no record for the chat. *)
Lemma verify_contact_success_without_record :
  normalize_phone "+919876543210" ∈ allowed_numbers sample_bot
  ∧ verify_contact sample_bot failing_put_env 5 "+919876543210" empty_world
    = (Ok true, empty_world)
  ∧ ledger empty_world !! 5 = None.
Proof. split; [by vm_compute|]. split; reflexivity. Qed.

(** C6, at the input where the code departs from it: chat 5 shares a contact
    whose number is in the allow-list and [put_item] raises. The handler
    tells the chat it is verified and answers that the user was verified,
    but no record was written, and the next verification check reports the
    chat as not verified. *)
Lemma failed_write_reported_as_success :
  lambda_handler no_repr sample_bot failing_put_env
    (contact_update 5 "+919876543210") empty_world
  = (Ok (ok_response "User verified successfully."),
     posted empty_world (SendMessage 5
       "✅ You are now verified! You can now use the bot and commands like `/housekeeping`."))
  ∧ (is_user_verified failing_put_env 5
       (posted empty_world (SendMessage 5
          "✅ You are now verified! You can now use the bot and commands like `/housekeeping`."))).1
    = Ok false.
Proof. split; reflexivity. Qed.

(* ===================================================================== *)
(** * Document delivery *)
(* ===================================================================== *)

(** The [finally] clause leaves nothing at [p], unless [p] is a directory. *)
Lemma cleanup_removes (p : string) (w : World) :
  tmp w !! p ≠ Some Dir →
  ∃ w', (present ← os_path_exists p;
         if present : bool then os_remove p else mret ()) w = (Ok (), w')
        ∧ tmp w' !! p = None.
Proof.
  intros Hdir. unfold os_path_exists, os_remove. run.
  destruct (tmp w !! p) as [[]|] eqn:Hp; [|done|]; simpl.
  - rewrite Hp. eexists. split; [done|]. apply lookup_delete_eq.
  - by exists w.
Qed.

(** The download puts a file at [p] or leaves [p] as it was. *)
Lemma s3_download_no_dir (env : Env) (p : string) (w : World) :
  tmp w !! p ≠ Some Dir →
  ∃ o w', s3_download env p w = (Ok o, w') ∧ tmp w' !! p ≠ Some Dir.
Proof.
  intros Hdir. unfold s3_download.
  destruct (download_file env), (tmp w !! p) as [[]|] eqn:Hp;
    try done; do 2 eexists; (split; [done|]); simpl;
    rewrite ?lookup_insert_eq, ?Hp; done.
Qed.

Lemma send_document_result
    (env : Env) (chat_id : Z) (file_key : string) (caption : option string) (w : World) :
  tmp w !! ("/tmp/" +:+ basename file_key) ≠ Some Dir →
  ∃ w', send_document env chat_id file_key caption w = (Ok (), w')
        ∧ tmp w' !! ("/tmp/" +:+ basename file_key) = None.
Proof.
  unfold send_document. generalize ("/tmp/" +:+ basename file_key). intros p Hdir.
  destruct (s3_download_no_dir env p w Hdir) as (o & w1 & Hdl & Hdir1).
  unfold try_finally. unfold mbind at 1, M_bind at 1. rewrite Hdl.
  assert (∃ w2, (match o with
     | Downloaded =>
         post (SendDocument chat_id p (present_caption caption));;
         match post_document env with
         | Delivered => mret ()
         | RequestException =>
             send_message chat_id "❌ An error occurred while sending the document via Telegram."
         | HttpOtherError =>
             send_message chat_id "❌ An unexpected error occurred while processing your document request."
         end
     | NoSuchBucket =>
         send_message chat_id "❌ Error: The file storage bucket could not be found."
     | NoSuchKey =>
         send_message chat_id ("❌ Error: The requested document '" +:+ file_key +:+ "' was not found.")
     | S3OtherError =>
         send_message chat_id "❌ An unexpected error occurred while processing your document request."
     end) w1 = (Ok (), w2) ∧ tmp w2 = tmp w1) as (w2 & -> & Htmp).
  { destruct o; [destruct (post_document env)|..]; eexists; split; reflexivity. }
  rewrite <- Htmp in Hdir1.
  destruct (cleanup_removes p w2 Hdir1) as (w3 & -> & Hgone). by exists w3.
Qed.

(** C5. Whatever the storage and the transport answer (success, bucket not
    found, key not found, transport failure, any other error), a call of
    [send_document] returns and leaves nothing at its scratch path, provided
    that path did not name a directory beforehand. *)
Theorem send_document_removes_scratch_file
    (env : Env) (chat_id : Z) (file_key : string) (caption : option string) (w : World) :
  tmp w !! ("/tmp/" +:+ basename file_key) ≠ Some Dir →
  (send_document env chat_id file_key caption w).1 = Ok ()
  ∧ tmp (send_document env chat_id file_key caption w).2
      !! ("/tmp/" +:+ basename file_key) = None.
Proof.
  intros Hdir.
  by destruct (send_document_result env chat_id file_key caption w Hdir)
    as (w' & -> & Hgone).
Qed.

Lemma send_document_removes_scratch_file_witness :
  (send_document missing_key_env 5 WASTE_MANAGEMENT_PDF_KEY None
     {| ledger := ∅; tmp := {[ "/tmp/waste_management.pdf" := File ]}; outbox := [] |}).1 = Ok ()
  ∧ tmp (send_document missing_key_env 5 WASTE_MANAGEMENT_PDF_KEY None
     {| ledger := ∅; tmp := {[ "/tmp/waste_management.pdf" := File ]}; outbox := [] |}).2
      !! ("/tmp/" +:+ basename WASTE_MANAGEMENT_PDF_KEY) = None.
Proof.
  apply (send_document_removes_scratch_file missing_key_env 5
           WASTE_MANAGEMENT_PDF_KEY None). by vm_compute.
Defined.

(* ===================================================================== *)
(** * The request handler *)
(* ===================================================================== *)

(** C10. When the body decodes, the message carries a chat id that is not
    null, and [int] raises on it, the handler answers 500 with the internal
    error body, not the 400 of a missing chat id, and the world is the one
    it started from: the ledger is neither read nor written and nothing is
    posted, not even the apology of the [except] clause, whose own [int]
    raises again. *)
Theorem unconvertible_chat_id_is_internal_error
    (repr_container : json → string) (bot : TelegramBot) (env : Env)
    (event : Event) (j message chat chat_id_raw : json) (e : exn) (w : World) :
  body event = Some (Document j) →
  dict_get j "message" (JObj ∅) = Ok message →
  dict_get message "chat" (JObj ∅) = Ok chat →
  dict_get chat "id" JNull = Ok chat_id_raw →
  chat_id_raw ≠ JNull →
  py_int chat_id_raw = Raise e →
  lambda_handler repr_container bot env event w =
    (Ok {| statusCode := 500;
           response_body := json_dumps "error" "Internal Server Error" |}, w).
Proof.
  intros Hb Hm Hc Hi Hnn Hint.
  unfold lambda_handler, handle, report_failure. rewrite Hb. run.
  rewrite Hm, Hc, Hi.
  destruct chat_id_raw; [done|..]; rewrite Hint; by destruct (truthy _).
Qed.

Lemma unconvertible_chat_id_is_internal_error_witness :
  lambda_handler no_repr sample_bot sample_env
    (update (JStr "abc") {[ "text" := JStr "/help" ]}) verified_world =
    (Ok {| statusCode := 500;
           response_body := json_dumps "error" "Internal Server Error" |},
     verified_world).
Proof.
  apply (unconvertible_chat_id_is_internal_error no_repr sample_bot sample_env
           (update (JStr "abc") {[ "text" := JStr "/help" ]})
           (JObj {[ "message" := JObj (<["chat" := JObj {[ "id" := JStr "abc" ]}]>
                                         {[ "text" := JStr "/help" ]}) ]})
           (JObj (<["chat" := JObj {[ "id" := JStr "abc" ]}]> {[ "text" := JStr "/help" ]}))
           (JObj {[ "id" := JStr "abc" ]})
           (JStr "abc") ValueError verified_world);
    by vm_compute.
Defined.

(* ===================================================================== *)
(** * The command dispatcher *)
(* ===================================================================== *)

Section Dispatcher.

Variable repr_container : json → string.
Variable bot : TelegramBot.
Variable env : Env.

(** For a verified chat the handler is the dispatcher on the stripped,
    lowercased text. *)
Lemma lambda_handler_verified event message c raw w :
  incoming event message c raw →
  (is_user_verified env c w).1 = Ok true →
  lambda_handler repr_container bot env event w =
    try_except (command_flow bot env c (PyStr.lower (PyStr.strip raw)))
      (λ _, report_failure event) w.
Proof.
  intros Hin Hver. unfold lambda_handler, try_except.
  rewrite (handle_incoming _ _ _ _ _ _ _ _ Hin).
  apply is_user_verified_true in Hver as [Hget Hsome].
  unfold mbind at 1, M_bind at 1, is_user_verified. rewrite Hget.
  by rewrite bool_decide_eq_true_2.
Qed.

Lemma command_flow_start c w :
  command_flow bot env c "/start" w =
    (Ok (ok_response "Verified user sent /start."),
     posted w (SendMessage c welcome_back_text)).
Proof. reflexivity. Qed.

Lemma command_flow_unrecognized c t w :
  t ≠ "/start" → t ≠ "" →
  command_of t ∉ contact_categories →
  command_of t ≠ "wastemanagementpdf" →
  command_of t ≠ "help" →
  command_flow bot env c t w =
    (Ok (ok_response "Command processed for verified user."),
     posted w (SendMessage c (unrecognized_text t))).
Proof.
  intros H1 H2 H3 H4 H5. unfold command_flow.
  rewrite !bool_decide_eq_false_2 by done. reflexivity.
Qed.

End Dispatcher.

(** C7, as stated, fails: for the verified chat 5 the text "start", whose
    token after lowercasing and stripping the marker is "start", is answered
    with the unrecognized-command message, and no welcome back is sent. *)
Lemma start_without_marker_counterexample :
  (is_user_verified sample_env 5 verified_world).1 = Ok true
  ∧ command_of (PyStr.lower (PyStr.strip "start")) = "start"
  ∧ outbox (lambda_handler no_repr sample_bot sample_env
              (text_update 5 "start") verified_world).2
    = [SendMessage 5 (unrecognized_text "start")]
  ∧ SendMessage 5 welcome_back_text
    ∉ outbox (lambda_handler no_repr sample_bot sample_env
                (text_update 5 "start") verified_world).2.
Proof.
  assert (H : outbox (lambda_handler no_repr sample_bot sample_env
                        (text_update 5 "start") verified_world).2
              = [SendMessage 5 (unrecognized_text "start")]) by by vm_compute.
  split; [by vm_compute|]. split; [by vm_compute|]. split; [exact H|].
  rewrite H. intros Hin%list_elem_of_singleton. by vm_compute in Hin.
Qed.

(** C7, amended. For every verified chat whose message text, stripped of
    surrounding white space and lowercased, is "/start" with its marker, the
    handler sends the welcome back message and nothing else; when that text
    is "start" without the marker, the reply is the unrecognized-command
    message instead. *)
Theorem start_command_welcomes_back
    (repr_container : json → string) (bot : TelegramBot) (env : Env)
    (event : Event) (message : json) (c : Z) (raw : string) (w : World) :
  incoming event message c raw →
  (is_user_verified env c w).1 = Ok true →
  (PyStr.lower (PyStr.strip raw) = "/start" →
   lambda_handler repr_container bot env event w =
     (Ok (ok_response "Verified user sent /start."),
      posted w (SendMessage c welcome_back_text)))
  ∧ (PyStr.lower (PyStr.strip raw) = "start" →
     lambda_handler repr_container bot env event w =
       (Ok (ok_response "Command processed for verified user."),
        posted w (SendMessage c (unrecognized_text "start")))).
Proof.
  intros Hin Hver.
  rewrite (lambda_handler_verified _ _ _ _ _ _ _ _ Hin Hver).
  split; intros ->; unfold try_except.
  - by rewrite command_flow_start.
  - rewrite command_flow_unrecognized; [done| | | | |]; try by vm_compute.
    intros Hcat. apply (bool_decide_eq_true_2 _) in Hcat. by vm_compute in Hcat.
Qed.

Lemma incoming_text_update (chat_id : Z) (text : string) :
  incoming (text_update chat_id text)
    (JObj (<["chat" := JObj {[ "id" := JInt chat_id ]}]> {[ "text" := JStr text ]}))
    chat_id text.
Proof.
  eexists _, (JObj {[ "id" := JInt chat_id ]}), (JInt chat_id).
  split; [reflexivity|]. simpl.
  rewrite lookup_singleton_eq, lookup_insert_eq, lookup_singleton_eq.
  rewrite lookup_insert_ne, lookup_singleton_eq by done. done.
Qed.

Lemma start_command_welcomes_back_witness :
  lambda_handler no_repr sample_bot sample_env (text_update 5 " /Start ") verified_world =
    (Ok (ok_response "Verified user sent /start."),
     posted verified_world (SendMessage 5 welcome_back_text)).
Proof.
  apply (start_command_welcomes_back no_repr sample_bot sample_env _ _ 5 " /Start "
           verified_world (incoming_text_update 5 " /Start ")); by vm_compute.
Defined.




(* ===================================================================== *)
(** * Contact lookup *)
(* ===================================================================== *)

Section Filter.

Context {A : Type} (f : A → bool).




End Filter.





Lemma append_cons (c : ascii) (s t : string) :
  String c s +:+ t = String c (s +:+ t).
Proof. reflexivity. Qed.


















(** The message itself: the header, Ravi and Kiran with their numbers in
    canonical form, an empty line between the two entries and none at the
    end. *)
Lemma sample_auto_listing :
  outbox (lambda_handler no_repr sample_bot sample_env
            (text_update 5 " /Auto ") verified_world).2
  = [SendMessage 5
       ("📌 **Auto Contacts:**" +:+ PyStr.nl +:+ PyStr.nl
        +:+ "• **Ravi**" +:+ PyStr.nl
        +:+ " " +:+ PyStr.nbsp +:+ "📞 `+91 98765 43210`" +:+ PyStr.nl +:+ PyStr.nl
        +:+ "• **Kiran**" +:+ PyStr.nl
        +:+ " " +:+ PyStr.nbsp +:+ "📞 `+91 98765 43212`")].
Proof. by vm_compute. Qed.

(* ===================================================================== *)
(** * Further properties of the phone normaliser *)
(* ===================================================================== *)

Lemma filter_append (p : ascii → bool) (s t : string) :
  PyStr.filter p (s +:+ t) = PyStr.filter p s +:+ PyStr.filter p t.
Proof.
  induction s as [|c s IH]; [done|].
  rewrite append_cons. simpl. rewrite IH. by destruct (p c).
Qed.

Lemma filter_filter (p : ascii → bool) (s : string) :
  PyStr.filter p (PyStr.filter p s) = PyStr.filter p s.
Proof. apply filter_all_id, all_filter. Qed.

Lemma all_take (p : ascii → bool) (n : nat) (s : string) :
  PyStr.all p s = true → PyStr.all p (PyStr.take n s) = true.
Proof.
  revert s. induction n as [|n IH]; intros [|c s]; simpl; try done.
  intros [Hc Hs]%andb_true_iff. rewrite Hc. by apply IH.
Qed.

Lemma all_drop (p : ascii → bool) (n : nat) (s : string) :
  PyStr.all p s = true → PyStr.all p (PyStr.drop n s) = true.
Proof.
  revert s. induction n as [|n IH]; intros [|c s]; simpl; try done.
  intros [Hc Hs]%andb_true_iff. by apply IH.
Qed.

Lemma take_drop_append (n : nat) (s : string) :
  PyStr.take n s +:+ PyStr.drop n s = s.
Proof.
  revert s. induction n as [|n IH]; intros [|c s]; simpl; try done.
  rewrite append_cons. by rewrite IH.
Qed.

(** The result depends on the digits of the input only. *)
Lemma normalize_phone_cleaned (p q : string) :
  PyStr.re_sub_nondigits p = PyStr.re_sub_nondigits q →
  normalize_phone p = normalize_phone q.
Proof. intros H. unfold normalize_phone. by rewrite H. Qed.

Lemma length_twelve_91 (s : string) :
  String.length s = 12%nat → PyStr.startswith "91" s = true →
  ∃ D, String.length D = 10%nat ∧ s = String "9" (String "1" D).
Proof.
  intros Hlen Hpre. destruct s as [|a [|b D]]; try discriminate Hlen.
  unfold PyStr.startswith in Hpre.
  change (String.prefix "91" (String a (String b D)))
    with (if ascii_dec "9" a then
            if ascii_dec "1" b then String.prefix "" D else false
          else false) in Hpre.
  destruct (ascii_dec "9" a) as [<-|]; [|done].
  destruct (ascii_dec "1" b) as [<-|]; [|done].
  exists D. split; [|done]. simpl in Hlen. lia.
Qed.

(** The three cases of [normalize_phone] on a stripped form. *)
Lemma normalize_phone_cases (phone : string) :
  let cleaned := PyStr.re_sub_nondigits phone in
  (String.length cleaned = 10%nat ∧ normalize_phone phone = canonical cleaned)
  ∨ (∃ D, String.length D = 10%nat ∧ cleaned = String "9" (String "1" D)
          ∧ normalize_phone phone = canonical D)
  ∨ (String.length cleaned ≠ 10%nat
     ∧ ¬ (String.length cleaned = 12%nat ∧ PyStr.startswith "91" cleaned = true)
     ∧ normalize_phone phone = cleaned).
Proof.
  intros cleaned. unfold normalize_phone. fold cleaned.
  case_bool_decide as H10; [by left|]. right.
  destruct (bool_decide (String.length cleaned = 12%nat) && PyStr.startswith "91" cleaned)
    eqn:H12.
  - left. apply andb_true_iff in H12 as [Hl%bool_decide_eq_true Hp].
    destruct (length_twelve_91 cleaned Hl Hp) as (D & HD & ->).
    exists D. by repeat split.
  - right. split; [done|]. split.
    + intros [Hl Hp]. by rewrite bool_decide_eq_true_2, Hp in H12.
    + pose proof (cleaned_never_plus phone) as Hplus. fold cleaned in Hplus.
      by rewrite Hplus, andb_false_r.
Qed.

(** The canonical form of ten digits strips to "91" followed by them. *)
Lemma cleaned_canonical (D : string) :
  PyStr.all PyStr.isdigit D = true →
  PyStr.re_sub_nondigits (canonical D) = String "9" (String "1" D).
Proof.
  intros HD. unfold canonical, PyStr.re_sub_nondigits.
  rewrite !filter_append.
  rewrite (filter_all_id _ (PyStr.take 5 D)) by by apply all_take.
  rewrite (filter_all_id _ (PyStr.drop 5 D)) by by apply all_drop.
  change (PyStr.filter PyStr.isdigit "+91 ") with "91".
  change (PyStr.filter PyStr.isdigit " ") with "".
  change ("" +:+ PyStr.drop 5 D) with (PyStr.drop 5 D).
  rewrite take_drop_append. reflexivity.
Qed.

Lemma normalize_phone_canonical (D : string) :
  String.length D = 10%nat → PyStr.all PyStr.isdigit D = true →
  normalize_phone (canonical D) = canonical D.
Proof.
  intros Hlen HD. unfold normalize_phone at 1. rewrite (cleaned_canonical D HD).
  destruct (length_ten D Hlen) as (a&b&c&d&e&f&g&h&i&j&->). reflexivity.
Qed.

(** X1. [normalize_phone] is idempotent on every input: normalising a result
    again gives the same string. *)
Theorem normalize_phone_idempotent (phone : string) :
  normalize_phone (normalize_phone phone) = normalize_phone phone.
Proof.
  pose proof (all_filter PyStr.isdigit phone) as Hdig.
  fold (PyStr.re_sub_nondigits phone) in Hdig.
  destruct (normalize_phone_cases phone)
    as [[Hlen ->]|[(D & Hlen & Hc & ->)|(H10 & H12 & ->)]].
  - by apply normalize_phone_canonical.
  - apply normalize_phone_canonical; [done|].
    rewrite Hc in Hdig. by simpl in Hdig.
  - destruct (normalize_phone_cases (PyStr.re_sub_nondigits phone))
      as [[Hlen _]|[(D & Hlen & Hc & _)|(_ & _ & ->)]].
    + unfold PyStr.re_sub_nondigits in Hlen, H10. by rewrite filter_filter in Hlen.
    + unfold PyStr.re_sub_nondigits in Hc, H12. rewrite filter_filter in Hc.
      destruct H12. rewrite Hc. split; [simpl; lia|].
      destruct (length_ten D Hlen) as (a&b&c&d&e&f&g&h&i&j&->). reflexivity.
    + unfold PyStr.re_sub_nondigits. apply filter_filter.
Qed.

(** X2. A character that is not a digit, wherever it stands in the input
    (a space, a dash, a bracket, the plus sign), does not change the result. *)
Theorem normalize_phone_ignores_non_digit (before after : string) (c : ascii) :
  PyStr.isdigit c = false →
  normalize_phone (before +:+ String c after) = normalize_phone (before +:+ after).
Proof.
  intros Hc. apply normalize_phone_cleaned. unfold PyStr.re_sub_nondigits.
  rewrite !filter_append. simpl. by rewrite Hc.
Qed.

Lemma normalize_phone_ignores_non_digit_witness :
  normalize_phone ("(98765" +:+ String ")" "43210") = normalize_phone ("(98765" +:+ "43210").
Proof. apply (normalize_phone_ignores_non_digit "(98765" "43210" ")"). reflexivity. Defined.

(** X3. A result has one of two shapes: the canonical form of ten digits,
    or a string of digits only, which is then the stripped input and has
    neither ten digits nor twelve digits beginning with "91". *)
Theorem normalize_phone_shape (phone : string) :
  (∃ D, String.length D = 10%nat ∧ PyStr.all PyStr.isdigit D = true
        ∧ normalize_phone phone = canonical D)
  ∨ (PyStr.all PyStr.isdigit (normalize_phone phone) = true
     ∧ normalize_phone phone = PyStr.re_sub_nondigits phone
     ∧ String.length (normalize_phone phone) ≠ 10%nat
     ∧ ¬ (String.length (normalize_phone phone) = 12%nat
          ∧ PyStr.startswith "91" (normalize_phone phone) = true)).
Proof.
  pose proof (all_filter PyStr.isdigit phone) as Hdig.
  fold (PyStr.re_sub_nondigits phone) in Hdig.
  destruct (normalize_phone_cases phone)
    as [[Hlen ->]|[(D & Hlen & Hc & ->)|(H10 & H12 & ->)]].
  - left. by exists (PyStr.re_sub_nondigits phone).
  - left. exists D. repeat split; [done|].
    rewrite Hc in Hdig. by simpl in Hdig.
  - right. by repeat split.
Qed.

(* ===================================================================== *)
(** * The ledger *)
(* ===================================================================== *)

(** X4. A record that [save_verified_user] wrote is found by the next
    [is_user_verified] of the same chat, when neither call fails; the answer
    for every other chat is what it was, and nothing else of the world has
    changed. *)
Theorem saved_user_is_verified
    (env env' : Env) (c : Z) (phone : string) (w : World) :
  put_item_raises env = false →
  get_item_raises env' = false →
  (is_user_verified env' c (save_verified_user env c phone w).2).1 = Ok true
  ∧ (∀ d, d ≠ c →
       (is_user_verified env' d (save_verified_user env c phone w).2).1
       = (is_user_verified env' d w).1)
  ∧ tmp (save_verified_user env c phone w).2 = tmp w
  ∧ outbox (save_verified_user env c phone w).2 = outbox w.
Proof.
  intros Hput Hget. unfold save_verified_user, is_user_verified.
  rewrite Hput, Hget. simpl. split.
  - by rewrite lookup_insert_eq.
  - split; [|done]. intros d Hd. by rewrite lookup_insert_ne.
Qed.

Lemma saved_user_is_verified_witness :
  (is_user_verified sample_env 7
     (save_verified_user sample_env 7 "+91 98765 43210" verified_world).2).1 = Ok true
  ∧ (∀ d, d ≠ 7 →
       (is_user_verified sample_env d
          (save_verified_user sample_env 7 "+91 98765 43210" verified_world).2).1
       = (is_user_verified sample_env d verified_world).1)
  ∧ tmp (save_verified_user sample_env 7 "+91 98765 43210" verified_world).2
    = tmp verified_world
  ∧ outbox (save_verified_user sample_env 7 "+91 98765 43210" verified_world).2
    = outbox verified_world.
Proof.
  apply (saved_user_is_verified sample_env sample_env 7 "+91 98765 43210" verified_world);
    reflexivity.
Defined.

(* ===================================================================== *)
(** * The allow-list and the directory as loaded *)
(* ===================================================================== *)

(** The numbers of the loaded allow-list are the normalised cells of the
    column Number. *)
Lemma elem_of_load_allowed_users (st : Storage) (df : DataFrame) (n : string) :
  bucket_unset st = false →
  allowed_users_xlsx st = Sheet df →
  "Number" ∈ columns df →
  n ∈ load_allowed_users_from_s3 st ↔
  ∃ row, row ∈ rows df ∧ normalize_phone (str_of_cell (row_item row "Number")) = n.
Proof.
  intros Hb Hs Hcol. unfold load_allowed_users_from_s3. rewrite Hb, Hs.
  rewrite bool_decide_eq_false_2 by by intros [].
  rewrite elem_of_list_to_set, list_elem_of_In, in_map_iff.
  split; intros (row & H1 & H2); exists row.
  - by rewrite list_elem_of_In.
  - by rewrite <- list_elem_of_In.
Qed.

Lemma load_allowed_users_empty (st : Storage) :
  bucket_unset st = true
  ∨ (∀ df, allowed_users_xlsx st ≠ Sheet df)
  ∨ (∃ df, allowed_users_xlsx st = Sheet df ∧ "Number" ∉ columns df) →
  load_allowed_users_from_s3 st = ∅.
Proof.
  unfold load_allowed_users_from_s3. intros [->|[H|(df & -> & H)]]; [done| |].
  - destruct (bucket_unset st); [done|].
    destruct (allowed_users_xlsx st) as [df| | |]; [by destruct (H df)|done..].
  - destruct (bucket_unset st); [done|]. by rewrite bool_decide_eq_true_2.
Qed.



(** X6. An empty cell in the column Number of the allow-list sheet is read
    as NaN and normalised to the empty string, so [verify_contact] then
    accepts every phone number that holds no digit at all. *)
Theorem empty_cell_admits_digitless_numbers
    (st : Storage) (df : DataFrame) (row : gmap string cell)
    (env : Env) (c : Z) (phone : string) (w : World) :
  bucket_unset st = false →
  allowed_users_xlsx st = Sheet df →
  "Number" ∈ columns df →
  row ∈ rows df →
  row !! "Number" = Some NaN →
  PyStr.re_sub_nondigits phone = "" →
  (verify_contact (cold_start st) env c phone w).1 = Ok true.
Proof.
  intros Hb Hs Hcol Hrow Hnan Hphone.
  destruct (verify_contact_spec (cold_start st) env c phone w) as (-> & _).
  rewrite bool_decide_eq_true_2; [done|]. simpl.
  apply (elem_of_load_allowed_users st df _ Hb Hs Hcol).
  exists row. split; [done|]. unfold row_item. rewrite Hnan. simpl.
  unfold normalize_phone. by rewrite Hphone.
Qed.

Lemma empty_cell_admits_digitless_numbers_witness :
  (verify_contact (cold_start sample_storage) sample_env 5 "unknown" empty_world).1 = Ok true.
Proof.
  apply (empty_cell_admits_digitless_numbers sample_storage sample_allowed_sheet
           {[ "Name" := Str "Asha"; "Number" := NaN ]} sample_env 5 "unknown" empty_world);
    try by vm_compute.
  apply list_elem_of_In. right. by left.
Defined.

(** X7. When the allow-list could not be loaded (the bucket name is unset,
    the sheet could not be fetched or read, or it has no column Number), the
    list is empty and [verify_contact] refuses every number and leaves the
    world as it was. *)
Theorem no_allow_list_no_verification
    (st : Storage) (env : Env) (c : Z) (phone : string) (w : World) :
  bucket_unset st = true
  ∨ (∀ df, allowed_users_xlsx st ≠ Sheet df)
  ∨ (∃ df, allowed_users_xlsx st = Sheet df ∧ "Number" ∉ columns df) →
  verify_contact (cold_start st) env c phone w = (Ok false, w).
Proof.
  intros H. unfold verify_contact, cold_start. simpl.
  rewrite (load_allowed_users_empty st H).
  by rewrite bool_decide_eq_false_2 by set_solver.
Qed.

Lemma no_allow_list_no_verification_witness :
  verify_contact (cold_start broken_storage) sample_env 5 "+919876543210" empty_world
  = (Ok false, empty_world).
Proof.
  apply (no_allow_list_no_verification broken_storage sample_env 5 "+919876543210"
           empty_world).
  right. left. intros df. discriminate.
Defined.

(** X8. When the contact sheet could not be loaded (the bucket name is unset
    or the sheet could not be fetched or read), the directory is the empty
    frame with its three columns, and the lookup of any category answers
    with the no-contacts text, not with an internal error. *)
Theorem no_directory_no_contacts
    (st : Storage) (chat_id : Z) (category : string) (w : World) :
  bucket_unset st = true ∨ (∀ df, contacts_xlsx st ≠ Sheet df) →
  get_contacts (cold_start st) chat_id category w
  = (Ok (), posted w (SendMessage chat_id (no_contacts_text category))).
Proof.
  intros H.
  assert (load_contacts_from_s3 st = empty_contacts) as Hload.
  { unfold load_contacts_from_s3. destruct H as [->|H]; [done|].
    destruct (bucket_unset st); [done|].
    destruct (contacts_xlsx st) as [df| | |]; [by destruct (H df)|done..]. }
  unfold get_contacts, cold_start. simpl. rewrite Hload.
  rewrite bool_decide_eq_false_2; [done|]. intros Hn. apply Hn. by vm_compute.
Qed.

Lemma no_directory_no_contacts_witness :
  get_contacts (cold_start broken_storage) 5 "plumber" verified_world
  = (Ok (), posted verified_world (SendMessage 5 (no_contacts_text "plumber"))).
Proof.
  apply (no_directory_no_contacts broken_storage 5 "plumber" verified_world).
  right. intros df. discriminate.
Defined.

(** X9. Whatever the directory and the category, [get_contacts] returns
    after posting exactly one message, to the chat that asked; it touches
    neither the ledger nor the scratch directory. *)
Theorem get_contacts_posts_one_message
    (bot : TelegramBot) (chat_id : Z) (category : string) (w : World) :
  ∃ text, get_contacts bot chat_id category w
          = (Ok (), posted w (SendMessage chat_id text)).
Proof.
  unfold get_contacts. case_bool_decide; [by eexists|].
  destruct (List.filter _ _); by eexists.
Qed.

(* ===================================================================== *)
(** * Further properties of document delivery *)
(* ===================================================================== *)

#[local] Instance frame_except_preorder (p : string) : PreOrder (frame_except p).
Proof.
  split.
  - by intros w.
  - intros w1 w2 w3 [Hl1 Ht1] [Hl2 Ht2]. split; [congruence|].
    intros q Hq. rewrite Ht2, Ht1; done.
Qed.

Lemma frame_except_post (p : string) (r : request) :
  maintains (frame_except p) (post r).
Proof. by intros w. Qed.

Lemma frame_except_s3_download (env : Env) (p : string) :
  maintains (frame_except p) (s3_download env p).
Proof.
  intros w. unfold s3_download.
  destruct (download_file env), (tmp w !! p) as [[]|]; simpl; try reflexivity;
    (split; [done|]; intros q Hq; simpl; by rewrite lookup_insert_ne).
Qed.

Lemma frame_except_os_remove (p : string) :
  maintains (frame_except p) (os_remove p).
Proof.
  intros w. unfold os_remove.
  destruct (tmp w !! p) as [[]|]; simpl; try reflexivity;
    (split; [done|]; intros q Hq; simpl; by rewrite lookup_delete_ne).
Qed.

(** X10. Whatever happens, also when it raises, [send_document] leaves the
    ledger as it was and changes no path of the scratch directory other than
    its own scratch path. *)
Theorem send_document_touches_only_scratch_path
    (env : Env) (chat_id : Z) (file_key : string) (caption : option string) (w : World) :
  ledger (send_document env chat_id file_key caption w).2 = ledger w
  ∧ ∀ q, q ≠ "/tmp/" +:+ basename file_key →
         tmp (send_document env chat_id file_key caption w).2 !! q = tmp w !! q.
Proof.
  assert (maintains (frame_except ("/tmp/" +:+ basename file_key))
            (send_document env chat_id file_key caption)) as H; [|exact (H w)].
  unfold send_document. maintains_step.
  - maintains_step; [apply frame_except_s3_download|].
    repeat maintains_step; apply frame_except_post.
  - maintains_step; [intros w'; reflexivity|].
    repeat maintains_step. apply frame_except_os_remove.
Qed.

(** The [finally] clause on a path that is no directory. *)
Lemma cleanup_effect (p : string) (w : World) :
  tmp w !! p ≠ Some Dir →
  (present ← os_path_exists p;
   if present : bool then os_remove p else mret ()) w
  = (Ok (), {| ledger := ledger w; tmp := delete p (tmp w); outbox := outbox w |}).
Proof.
  intros Hdir. unfold os_path_exists, os_remove. run.
  destruct (tmp w !! p) as [[]|] eqn:Hp; [|done|]; simpl.
  - by rewrite Hp.
  - rewrite delete_id by done. by destruct w.
Qed.

Lemma try_finally_cleanup {A} (m : M A) (p : string) (w w1 : World) (r : res A) :
  m w = (r, w1) →
  tmp w1 !! p ≠ Some Dir →
  try_finally m (present ← os_path_exists p;
                 if present : bool then os_remove p else mret ()) w
  = (r, {| ledger := ledger w1; tmp := delete p (tmp w1); outbox := outbox w1 |}).
Proof.
  intros Hm Hdir. unfold try_finally. rewrite Hm.
  by rewrite (cleanup_effect p w1 Hdir).
Qed.

(** X11. When its scratch path is no directory, [send_document] tells the
    chat how it went with one or two requests: the document alone when the
    download and the upload both succeeded; the document followed by one
    error message when the upload failed; one error message and no document
    when the download failed. *)
Theorem send_document_reports_outcome
    (env : Env) (chat_id : Z) (file_key : string) (caption : option string) (w : World) :
  tmp w !! ("/tmp/" +:+ basename file_key) ≠ Some Dir →
  ∃ new,
    outbox (send_document env chat_id file_key caption w).2 = outbox w ++ new
    ∧ ((download_file env = Downloaded ∧ post_document env = Delivered
        ∧ new = [SendDocument chat_id ("/tmp/" +:+ basename file_key)
                   (present_caption caption)])
       ∨ (download_file env = Downloaded ∧ post_document env ≠ Delivered
          ∧ ∃ text, new = [SendDocument chat_id ("/tmp/" +:+ basename file_key)
                             (present_caption caption);
                           SendMessage chat_id text])
       ∨ (download_file env ≠ Downloaded
          ∧ ∃ text, new = [SendMessage chat_id text])).
Proof.
  unfold send_document. generalize ("/tmp/" +:+ basename file_key). intros p Hdir.
  assert (tmp w !! p = None ∨ tmp w !! p = Some File) as Hp
    by (destruct (tmp w !! p) as [[]|]; auto; done).
  destruct (download_file env) eqn:Hdl; [destruct (post_document env) eqn:Hpost|..].
  all: erewrite try_finally_cleanup;
    [ | unfold mbind, M_bind, s3_download; rewrite Hdl;
        destruct Hp as [Hp|Hp]; rewrite ?Hp, ?Hpost; reflexivity
      | simpl; rewrite ?lookup_insert_eq; done ].
  all: simpl; eexists; (split; [rewrite <- ?app_assoc; reflexivity|]).
  - by left.
  - right. left. eauto.
  - right. left. eauto.
  - right. right. eauto.
  - right. right. eauto.
  - right. right. eauto.
Qed.

Lemma send_document_reports_outcome_witness :
  ∃ new,
    outbox (send_document missing_key_env 5 WASTE_MANAGEMENT_PDF_KEY None empty_world).2
    = outbox empty_world ++ new
    ∧ ((download_file missing_key_env = Downloaded
        ∧ post_document missing_key_env = Delivered
        ∧ new = [SendDocument 5 ("/tmp/" +:+ basename WASTE_MANAGEMENT_PDF_KEY)
                   (present_caption None)])
       ∨ (download_file missing_key_env = Downloaded
          ∧ post_document missing_key_env ≠ Delivered
          ∧ ∃ text, new = [SendDocument 5 ("/tmp/" +:+ basename WASTE_MANAGEMENT_PDF_KEY)
                             (present_caption None);
                           SendMessage 5 text])
       ∨ (download_file missing_key_env ≠ Downloaded
          ∧ ∃ text, new = [SendMessage 5 text])).
Proof.
  apply (send_document_reports_outcome missing_key_env 5 WASTE_MANAGEMENT_PDF_KEY None
           empty_world). by vm_compute.
Defined.

(* ===================================================================== *)
(** * Further properties of the request handler *)
(* ===================================================================== *)

Section Returns.

Context {A : Type} (Q : A → Prop).

Lemma returns_ret (a : A) : Q a → returns Q (mret a).
Proof. intros Ha w a' w' [= <- _]. done. Qed.

Lemma returns_raise (e : exn) : returns Q (raise e).
Proof. intros w a w' H. discriminate H. Qed.

Lemma returns_bind {B} (m : M B) (f : B → M A) :
  (∀ b, returns Q (f b)) → returns Q (m ≫= f).
Proof.
  intros Hf w a w'. unfold mbind, M_bind.
  destruct (m w) as [[b|e] w1]; [apply Hf|discriminate].
Qed.

End Returns.

Ltac returns_step :=
  lazymatch goal with
  | |- returns _ (mret _) => apply returns_ret
  | |- returns _ (respond _ _ _) => apply returns_ret
  | |- returns _ (raise _) => apply returns_raise
  | |- returns _ (_ ≫= _) => apply returns_bind; intros ?
  | |- returns _ (if ?b then _ else _) => destruct b
  | |- returns _ (match ?x with _ => _ end) => destruct x
  end.

Lemma maintains_weaken (R R' : World → World → Prop) {A} (m : M A) :
  (∀ w w', R w w' → R' w w') → maintains R m → maintains R' m.
Proof. intros HR Hm w. apply HR, Hm. Qed.

#[local] Instance keeps_ledger_preorder : PreOrder keeps_ledger.
Proof.
  split; [by intros w|]. intros w1 w2 w3 H1 H2. unfold keeps_ledger in *. congruence.
Qed.

#[local] Instance keeps_allowed_preorder (bot : TelegramBot) : PreOrder (keeps_allowed bot).
Proof.
  split; [intros w H; exact H|]. intros w1 w2 w3 H1 H2 H. apply H2, H1, H.
Qed.

Lemma keeps_ledger_allowed (bot : TelegramBot) (w w' : World) :
  keeps_ledger w w' → keeps_allowed bot w w'.
Proof. intros Hl H c rec. rewrite Hl. apply H. Qed.

Section HandlerSteps.

Variable repr_container : json → string.
Variable bot : TelegramBot.
Variable env : Env.

Lemma flows_return_200 :
  (∀ c t, returns (λ r, statusCode r = 200) (command_flow bot env c t))
  ∧ (∀ m c, returns (λ r, statusCode r = 200)
              (verification_flow repr_container bot env m c)).
Proof.
  split; intros; unfold command_flow, verification_flow; repeat returns_step; done.
Qed.

(** The [except] clause answers 500 after posting nothing, or the apology
    when the chat id of the update can be read and is not falsy. *)
Lemma report_failure_run (event : Event) (w : World) :
  ∃ w', report_failure event w
        = (Ok {| statusCode := 500;
                 response_body := json_dumps "error" "Internal Server Error" |}, w')
        ∧ (w' = w ∨ ∃ c text, event_chat_id event = Some c
                              ∧ w' = posted w (SendMessage c text)).
Proof.
  assert (∀ (r : res Response) w0, ∃ w' : World, (r, w0) = (r, w') ∧ (w' = w0 ∨
            ∃ c text, event_chat_id event = Some c
                      ∧ w' = posted w0 (SendMessage c text))) as Hsilent
    by (intros r w0; exists w0; by split; [|left]).
  unfold report_failure. unfold event_chat_id in *.
  destruct (body event) as [[|raw|j]|]; run; try apply Hsilent.
  destruct (dict_get j "message" (JObj ∅)) as [message|e]; simpl;
    [|destruct e; apply Hsilent].
  destruct (dict_get message "chat" (JObj ∅)) as [chat|e]; simpl;
    [|destruct e; apply Hsilent].
  destruct (dict_get chat "id" JNull) as [raw|e]; simpl;
    [|destruct e; apply Hsilent].
  destruct (truthy raw); simpl; [|apply Hsilent].
  destruct (py_int raw) as [c|e]; simpl; [|apply Hsilent].
  eexists. split; [reflexivity|]. right. exists c. eexists. by split.
Qed.

Lemma incoming_valid event message c raw :
  incoming event message c raw →
  ¬ invalid_request event ∧ event_chat_id event = Some c.
Proof.
  intros (j & chat & raw_id & Hb & Hm & Hc & Hi & Hnn & Hint & Ht). split.
  - intros [H|[(raw' & H)|(j' & m' & ch' & H1 & H2 & H3 & H4)]]; congruence.
  - unfold event_chat_id. by rewrite Hb, Hm, Hc, Hi, Hint.
Qed.

(** What the body of the [try] does before it enters a flow. *)
Lemma handle_classify event w :
  (invalid_request event
   ∧ ∃ r, handle repr_container bot env event w = (Ok r, w) ∧ statusCode r = 400)
  ∨ (¬ invalid_request event
     ∧ ∃ e, handle repr_container bot env event w = (Raise e, w))
  ∨ ∃ message c raw, incoming event message c raw.
Proof.
  unfold handle.
  destruct (body event) as [[|raw|j]|] eqn:Hb.
  - right. left. split; [|by eexists].
    intros [H|[(raw' & H)|(j' & m' & ch' & H1 & _)]]; congruence.
  - left. split; [right; left; eauto|]. by eexists.
  - destruct (dict_get j "message" (JObj ∅)) as [message|e] eqn:Hm.
    2:{ right. left. split; [|run; rewrite Hm; by eexists].
        intros [H|[(raw' & H)|(j' & m' & ch' & H1 & H2 & H3 & H4)]]; congruence. }
    destruct (dict_get message "chat" (JObj ∅)) as [chat|e] eqn:Hc.
    2:{ right. left. split; [|run; rewrite Hm, Hc; by eexists].
        intros [H|[(raw' & H)|(j' & m' & ch' & H1 & H2 & H3 & H4)]]; congruence. }
    destruct (dict_get chat "id" JNull) as [raw_id|e] eqn:Hi.
    2:{ right. left. split; [|run; rewrite Hm, Hc, Hi; by eexists].
        intros [H|[(raw' & H)|(j' & m' & ch' & H1 & H2 & H3 & H4)]]; congruence. }
    assert (raw_id = JNull ∨ raw_id ≠ JNull) as [->|Hnn]
      by (destruct raw_id; auto; right; discriminate).
    { left. split; [right; right; by exists j, message, chat|].
      run. rewrite Hm, Hc, Hi. by eexists. }
    assert (¬ invalid_request event) as Hvalid.
    { intros [H|[(raw' & H)|(j' & m' & ch' & H1 & H2 & H3 & H4)]]; congruence. }
    destruct (py_int raw_id) as [chat_id|e] eqn:Hint.
    2:{ right. left. split; [done|]. run. rewrite Hm, Hc, Hi.
        destruct raw_id; [done|..]; rewrite Hint; by eexists. }
    destruct (dict_get message "text" (JStr "")) as [text|e] eqn:Ht.
    2:{ right. left. split; [done|]. run. rewrite Hm, Hc, Hi.
        destruct raw_id; [done|..]; rewrite Hint, Ht; by eexists. }
    destruct (strip_lower text) as [t|e] eqn:Hs.
    2:{ right. left. split; [done|]. run. rewrite Hm, Hc, Hi.
        destruct raw_id; [done|..]; rewrite Hint, Ht, Hs; by eexists. }
    right. right. destruct text; try discriminate Hs.
    exists message, chat_id, s. by exists j, chat, raw_id.
  - left. split; [by left|]. by eexists.
Qed.

(** The handler on a well-formed update: the flow of the chat, and the
    [except] clause when the flow raises. *)
Lemma lambda_handler_incoming event message c raw w :
  incoming event message c raw →
  lambda_handler repr_container bot env event w =
    try_except
      (verified ← is_user_verified env c;
       if verified : bool
       then command_flow bot env c (PyStr.lower (PyStr.strip raw))
       else verification_flow repr_container bot env message c)
      (λ _, report_failure event) w.
Proof.
  intros Hin. unfold lambda_handler, try_except.
  by rewrite (handle_incoming _ _ _ _ _ _ _ _ Hin).
Qed.

End HandlerSteps.

(** X12. The handler answers every event: it never lets an exception
    escape, and the status of its answer is 200, 400 or 500. *)
Theorem lambda_handler_always_answers
    (repr_container : json → string) (bot : TelegramBot) (env : Env)
    (event : Event) (w : World) :
  ∃ r w', lambda_handler repr_container bot env event w = (Ok r, w')
          ∧ (statusCode r = 200 ∨ statusCode r = 400 ∨ statusCode r = 500).
Proof.
  unfold lambda_handler, try_except.
  destruct (handle repr_container bot env event w) as [[r|e] w1] eqn:Hh.
  - exists r, w1. split; [done|].
    destruct (handle_classify repr_container bot env event w)
      as [(_ & r' & Hr & H400)|[(_ & e & He)|(message & c & raw & Hin)]].
    + rewrite Hh in Hr. injection Hr as <- _. auto.
    + rewrite Hh in He. discriminate He.
    + rewrite (handle_incoming _ _ _ _ _ _ _ _ Hin) in Hh. left.
      destruct (flows_return_200 repr_container bot env) as [Hc Hv].
      eapply (returns_bind (λ r, statusCode r = 200)); [|exact Hh].
      intros []; [apply Hc|apply Hv].
  - destruct (report_failure_run event w1) as (w' & -> & _).
    eexists _, w'. split; [done|]. auto.
Qed.

(** X13. The handler answers 400 exactly for the requests it refuses (no
    body, a body that is not JSON, no chat id in the message), and in that
    case it has read and written nothing: the world is the one it started
    from. *)
Theorem bad_request_iff_invalid
    (repr_container : json → string) (bot : TelegramBot) (env : Env)
    (event : Event) (w w' : World) (r : Response) :
  lambda_handler repr_container bot env event w = (Ok r, w') →
  (statusCode r = 400 ↔ invalid_request event)
  ∧ (statusCode r = 400 → w' = w).
Proof.
  unfold lambda_handler, try_except. intros Hrun.
  destruct (handle_classify repr_container bot env event w)
    as [(Hinv & r' & Hr & H400)|[(Hvalid & e & He)|(message & c & raw & Hin)]].
  - rewrite Hr in Hrun. injection Hrun as <- <-. done.
  - rewrite He in Hrun.
    destruct (report_failure_run event w) as (w1 & Hrep & _).
    rewrite Hrep in Hrun. injection Hrun as <- <-. simpl.
    split; [|done]. split; [done|]. intros H. by destruct Hvalid.
  - destruct (incoming_valid _ _ _ _ Hin) as [Hvalid _].
    assert (statusCode r ≠ 400) as Hne.
    { rewrite (handle_incoming _ _ _ _ _ _ _ _ Hin) in Hrun.
      destruct ((verified ← is_user_verified env c;
                 if verified : bool
                 then command_flow bot env c (PyStr.lower (PyStr.strip raw))
                 else verification_flow repr_container bot env message c) w)
        as [[r1|e] w1] eqn:Hflow.
      - injection Hrun as <- <-.
        destruct (flows_return_200 repr_container bot env) as [Hc Hv].
        assert (statusCode r1 = 200) as ->; [|done].
        eapply (returns_bind (λ r, statusCode r = 200)); [|exact Hflow].
        intros []; [apply Hc|apply Hv].
      - destruct (report_failure_run event w1) as (w2 & Hrep & _).
        rewrite Hrep in Hrun. by injection Hrun as <- <-. }
    split; [|done]. split; [done|]. intros H. by destruct Hvalid.
Qed.

Lemma bad_request_iff_invalid_witness :
  (statusCode {| statusCode := 400;
                 response_body := json_dumps "error" "Chat ID not found in message." |}
   = 400 ↔ invalid_request (update JNull {[ "text" := JStr "/help" ]}))
  ∧ (statusCode {| statusCode := 400;
                   response_body := json_dumps "error" "Chat ID not found in message." |}
     = 400 → verified_world = verified_world).
Proof.
  apply (bad_request_iff_invalid no_repr sample_bot sample_env
           (update JNull {[ "text" := JStr "/help" ]}) verified_world verified_world).
  reflexivity.
Defined.

Section ToChat.

Variable repr_container : json → string.
Variable bot : TelegramBot.
Variable env : Env.
Variable c : Z.

Lemma to_chat_get_contacts category :
  maintains (grows (to_chat c)) (get_contacts bot c category).
Proof.
  unfold get_contacts. repeat maintains_step. all: by apply grows_send_message.
Qed.

Lemma to_chat_send_document file_key caption :
  maintains (grows (to_chat c)) (send_document env c file_key caption).
Proof.
  unfold send_document. maintains_step.
  - maintains_step; [apply grows_s3_download|].
    repeat maintains_step.
    all: try by apply grows_send_message.
    by apply grows_post.
  - maintains_step; [intros w; reflexivity|].
    repeat maintains_step. apply grows_os_remove.
Qed.

Lemma to_chat_command_flow text :
  maintains (grows (to_chat c)) (command_flow bot env c text).
Proof.
  unfold command_flow. repeat maintains_step.
  all: try by apply grows_send_message.
  - apply to_chat_get_contacts.
  - apply to_chat_send_document.
Qed.

Lemma to_chat_verification_flow message :
  maintains (grows (to_chat c)) (verification_flow repr_container bot env message c).
Proof.
  unfold verification_flow. repeat maintains_step.
  all: try by apply grows_send_message.
  all: try by apply grows_post.
  apply grows_verify_contact.
Qed.

Lemma to_chat_report_failure event w :
  event_chat_id event = Some c →
  grows (to_chat c) w (report_failure event w).2.
Proof.
  intros Hc. destruct (report_failure_run event w) as (w' & -> & [->|(c' & text & Hc' & ->)]).
  - reflexivity.
  - rewrite Hc in Hc'. injection Hc' as <-. split; [done|]. exists [SendMessage c text].
    split; [done|]. by constructor.
Qed.

Lemma to_chat_lambda_handler event w :
  event_chat_id event = Some c →
  grows (to_chat c) w (lambda_handler repr_container bot env event w).2.
Proof.
  intros Hc. unfold lambda_handler, try_except.
  assert (grows (to_chat c) w (handle repr_container bot env event w).2) as Hh.
  { destruct (handle_classify repr_container bot env event w)
      as [(_ & r & -> & _)|[(_ & e & ->)|(message & c' & raw & Hin)]];
      [reflexivity..|].
    rewrite (handle_incoming _ _ _ _ _ _ _ _ Hin).
    destruct (incoming_valid _ _ _ _ Hin) as [_ Hc'].
    rewrite Hc in Hc'. injection Hc' as <-.
    assert (maintains (grows (to_chat c))
              (verified ← is_user_verified env c;
               if verified : bool
               then command_flow bot env c (PyStr.lower (PyStr.strip raw))
               else verification_flow repr_container bot env message c)) as Hm;
      [|exact (Hm w)].
    maintains_step; [apply grows_is_user_verified|].
    maintains_step; [apply to_chat_command_flow|apply to_chat_verification_flow]. }
  destruct (handle repr_container bot env event w) as [[r|e] w1]; [done|].
  etrans; [exact Hh|]. by apply to_chat_report_failure.
Qed.

End ToChat.

(** X14. The handler talks to nobody but the sender: every request it posts
    is addressed to the chat id it read from the update, and when no chat id
    can be read it posts nothing. *)
Theorem lambda_handler_answers_the_sender_only
    (repr_container : json → string) (bot : TelegramBot) (env : Env)
    (event : Event) (w : World) :
  ∃ new,
    outbox (lambda_handler repr_container bot env event w).2 = outbox w ++ new
    ∧ ∀ r, r ∈ new → event_chat_id event = Some (request_chat r).
Proof.
  destruct (event_chat_id event) as [c|] eqn:Hc.
  - destruct (to_chat_lambda_handler repr_container bot env c event w Hc)
      as [_ (new & Hout & Hnew)].
    exists new. split; [done|]. intros r Hr.
    rewrite Forall_forall in Hnew. by rewrite (Hnew r Hr).
  - exists []. split; [|by intros r Hr%elem_of_nil].
    rewrite app_nil_r. unfold lambda_handler, try_except.
    destruct (handle_classify repr_container bot env event w)
      as [(_ & r & -> & _)|[(_ & e & ->)|(message & c' & raw & Hin)]].
    + done.
    + destruct (report_failure_run event w) as (w' & -> & [->|(c' & text & Hc' & _)]);
        [done|congruence].
    + destruct (incoming_valid _ _ _ _ Hin) as [_ Hc']. congruence.
Qed.

Section Ledger.

Variable repr_container : json → string.
Variable bot : TelegramBot.
Variable env : Env.

Lemma keeps_ledger_post r : maintains keeps_ledger (post r).
Proof. by intros w. Qed.

Lemma keeps_ledger_get_contacts c category :
  maintains keeps_ledger (get_contacts bot c category).
Proof.
  unfold get_contacts. repeat maintains_step. all: apply keeps_ledger_post.
Qed.

Lemma keeps_ledger_send_document c file_key caption :
  maintains keeps_ledger (send_document env c file_key caption).
Proof.
  assert (maintains (frame_except ("/tmp/" +:+ basename file_key))
            (send_document env c file_key caption)) as H.
  { unfold send_document. maintains_step.
    - maintains_step; [apply frame_except_s3_download|].
      repeat maintains_step; apply frame_except_post.
    - maintains_step; [intros w'; reflexivity|].
      repeat maintains_step. apply frame_except_os_remove. }
  intros w. by destruct (H w).
Qed.

Lemma keeps_ledger_command_flow c text :
  maintains keeps_ledger (command_flow bot env c text).
Proof.
  unfold command_flow. repeat maintains_step.
  all: try apply keeps_ledger_post.
  - apply keeps_ledger_get_contacts.
  - apply keeps_ledger_send_document.
Qed.

Lemma keeps_ledger_report_failure event :
  maintains keeps_ledger (report_failure event).
Proof.
  unfold report_failure. repeat maintains_step. all: apply keeps_ledger_post.
Qed.

Lemma keeps_allowed_verify_contact c phone :
  maintains (keeps_allowed bot) (verify_contact bot env c phone).
Proof.
  intros w Hw. unfold verify_contact, save_verified_user.
  case_bool_decide as Hin; run; [|done].
  destruct (put_item_raises env); simpl; [done|].
  intros d rec. simpl. destruct (decide (c = d)) as [<-|Hne].
  - rewrite lookup_insert_eq. by intros [= <-].
  - rewrite lookup_insert_ne by done. apply Hw.
Qed.

Lemma keeps_allowed_verification_flow message c :
  maintains (keeps_allowed bot) (verification_flow repr_container bot env message c).
Proof.
  unfold verification_flow. repeat maintains_step.
  all: try (apply (maintains_weaken keeps_ledger);
            [apply keeps_ledger_allowed|apply keeps_ledger_post]).
  apply keeps_allowed_verify_contact.
Qed.

Lemma keeps_allowed_lambda_handler event :
  maintains (keeps_allowed bot) (lambda_handler repr_container bot env event).
Proof.
  unfold lambda_handler. maintains_step.
  - unfold handle. repeat maintains_step.
    all: try apply keeps_allowed_verification_flow.
    all: try (apply (maintains_weaken keeps_ledger); [apply keeps_ledger_allowed|];
              apply keeps_ledger_command_flow).
    all: intros w; unfold is_user_verified; destruct (get_item_raises env); reflexivity.
  - apply (maintains_weaken keeps_ledger); [apply keeps_ledger_allowed|].
    apply keeps_ledger_report_failure.
Qed.

End Ledger.

(** X15. The handler keeps the ledger clean: if every record carries a
    number of the allow-list before an event is handled, every record does
    afterwards, whatever the event and whatever the services answer. *)
Theorem lambda_handler_keeps_ledger_allowed
    (repr_container : json → string) (bot : TelegramBot) (env : Env)
    (event : Event) (w : World) :
  ledger_allowed bot w →
  ledger_allowed bot (lambda_handler repr_container bot env event w).2.
Proof. apply keeps_allowed_lambda_handler. Qed.

Lemma lambda_handler_keeps_ledger_allowed_witness :
  ledger_allowed sample_bot
    (lambda_handler no_repr sample_bot sample_env
       (contact_update 7 "98765-43210") verified_world).2.
Proof.
  apply (lambda_handler_keeps_ledger_allowed no_repr sample_bot sample_env
           (contact_update 7 "98765-43210") verified_world).
  intros c rec Hc. unfold verified_world in Hc. simpl in Hc.
  apply lookup_singleton_Some in Hc as [_ <-]. by vm_compute.
Defined.

(** X16. The dispatcher never writes the ledger: when the chat of the update
    is reported verified, the ledger after the event is the ledger before
    it, also when the command fails. *)
Theorem verified_chat_leaves_ledger
    (repr_container : json → string) (bot : TelegramBot) (env : Env)
    (event : Event) (c : Z) (w : World) :
  event_chat_id event = Some c →
  (is_user_verified env c w).1 = Ok true →
  ledger (lambda_handler repr_container bot env event w).2 = ledger w.
Proof.
  intros Hc Hver. unfold lambda_handler, try_except.
  assert (keeps_ledger w (handle repr_container bot env event w).2) as Hh.
  { destruct (handle_classify repr_container bot env event w)
      as [(_ & r & -> & _)|[(_ & e & ->)|(message & c' & raw & Hin)]];
      [reflexivity..|].
    rewrite (handle_incoming _ _ _ _ _ _ _ _ Hin).
    destruct (incoming_valid _ _ _ _ Hin) as [_ Hc'].
    rewrite Hc in Hc'. injection Hc' as <-.
    apply is_user_verified_true in Hver as [Hget Hsome].
    unfold mbind, M_bind, is_user_verified. rewrite Hget.
    rewrite bool_decide_eq_true_2 by done. apply keeps_ledger_command_flow. }
  destruct (handle repr_container bot env event w) as [[r|e] w1]; [done|].
  etrans; [apply keeps_ledger_report_failure|exact Hh].
Qed.

Lemma verified_chat_leaves_ledger_witness :
  ledger (lambda_handler no_repr sample_bot sample_env
            (text_update 5 "/wastemanagementpdf") verified_world).2
  = ledger verified_world.
Proof.
  apply (verified_chat_leaves_ledger no_repr sample_bot sample_env
           (text_update 5 "/wastemanagementpdf") 5 verified_world); reflexivity.
Defined.

(* ===================================================================== *)
(** * Further properties of the verification gate *)
(* ===================================================================== *)

Section GateFlows.

Variable repr_container : json → string.
Variable bot : TelegramBot.
Variable env : Env.

(** The check leaves the world as it is. *)
Lemma is_user_verified_run c w :
  is_user_verified env c w = ((is_user_verified env c w).1, w).
Proof. unfold is_user_verified. by destruct (get_item_raises env). Qed.

Lemma lambda_handler_unverified event message c raw w :
  incoming event message c raw →
  (is_user_verified env c w).1 = Ok false →
  lambda_handler repr_container bot env event w =
    try_except (verification_flow repr_container bot env message c)
      (λ _, report_failure event) w.
Proof.
  intros Hin Hver. rewrite (lambda_handler_incoming _ _ _ _ _ _ _ _ Hin).
  unfold try_except, mbind at 1, M_bind at 1.
  by rewrite is_user_verified_run, Hver.
Qed.

Lemma subscript_contains (v x : json) (key : string) :
  subscript v key = Ok x → dict_contains v key = true.
Proof.
  destruct v; try discriminate. simpl.
  destruct (m !! key) eqn:Hk; [|discriminate]. intros _.
  by apply bool_decide_eq_true_2.
Qed.

Lemma verification_flow_challenges message c w :
  dict_contains message "contact" = false
  ∨ (∃ contact user_id,
       subscript message "contact" = Ok contact
       ∧ dict_get contact "user_id" JNull = Ok user_id
       ∧ py_eq_int user_id c = false) →
  ∃ text,
    verification_flow repr_container bot env message c w
    = (Ok (ok_response "Requesting contact info for unverified user."),
       posted w (RequestContact c text)).
Proof.
  unfold verification_flow. intros [Hno|(contact & user_id & Hsub & Hget & Heq)].
  - rewrite Hno. by eexists.
  - rewrite (subscript_contains _ _ _ Hsub).
    destruct contact as [| | | | |mc]; try discriminate Hget.
    simpl in Hget. injection Hget as Hget.
    run. rewrite Hsub. simpl. rewrite Hget, Heq. by eexists.
Qed.

Lemma verification_flow_verifies message contact user_id phone c w :
  subscript message "contact" = Ok contact →
  dict_get contact "user_id" JNull = Ok user_id →
  py_eq_int user_id c = true →
  subscript contact "phone_number" = Ok phone →
  verification_flow repr_container bot env message c w =
    (ok ← verify_contact bot env c (py_str repr_container phone);
     if ok : bool then
       send_message c
         "✅ You are now verified! You can now use the bot and commands like `/housekeeping`.";;
       respond 200 "message" "User verified successfully."
     else
       send_message c "🚫 Verification failed. Your number is not recognized by our system.";;
       respond 200 "message" "Verification failed: unrecognized number.") w.
Proof.
  intros Hsub Hget Heq Hphone. unfold verification_flow.
  rewrite (subscript_contains _ _ _ Hsub).
  destruct contact as [| | | | |mc]; try discriminate Hget.
  simpl in Hget. injection Hget as Hget. simpl in Hphone.
  destruct (mc !! "phone_number") as [x|] eqn:Hx; [|discriminate Hphone].
  injection Hphone as ->.
  run. rewrite Hsub. simpl. rewrite Hget, Heq. simpl. by rewrite Hx.
Qed.

End GateFlows.

(** X17. A chat that the check reports as not verified, and whose message
    carries no contact, or a contact whose [user_id] is not the chat id (a
    contact of somebody else), is asked to share its contact: one request,
    no change of the ledger, status 200. This happens on every such message. *)
Theorem unverified_chat_is_challenged
    (repr_container : json → string) (bot : TelegramBot) (env : Env)
    (event : Event) (message : json) (c : Z) (raw : string) (w : World) :
  incoming event message c raw →
  (is_user_verified env c w).1 = Ok false →
  dict_contains message "contact" = false
  ∨ (∃ contact user_id,
       subscript message "contact" = Ok contact
       ∧ dict_get contact "user_id" JNull = Ok user_id
       ∧ py_eq_int user_id c = false) →
  ∃ text,
    lambda_handler repr_container bot env event w
    = (Ok (ok_response "Requesting contact info for unverified user."),
       posted w (RequestContact c text)).
Proof.
  intros Hin Hver Hcontact.
  rewrite (lambda_handler_unverified _ _ _ _ _ _ _ _ Hin Hver). unfold try_except.
  destruct (verification_flow_challenges repr_container bot env message c w Hcontact)
    as (text & ->).
  by exists text.
Qed.

Lemma unverified_chat_is_challenged_witness :
  ∃ text,
    lambda_handler no_repr sample_bot sample_env (text_update 9 "/auto") verified_world
    = (Ok (ok_response "Requesting contact info for unverified user."),
       posted verified_world (RequestContact 9 text)).
Proof.
  apply (unverified_chat_is_challenged no_repr sample_bot sample_env _ _ 9 "/auto"
           verified_world (incoming_text_update 9 "/auto")).
  - reflexivity.
  - left. reflexivity.
Defined.

(** X18. A chat that is not verified and shares its own contact, with a
    number of the allow-list, while the ledger accepts the write: the
    handler stores the record under the chat id, with the normalised number
    and the time of the call, sends the confirmation and answers 200. *)
Theorem own_contact_in_allow_list_is_verified
    (repr_container : json → string) (bot : TelegramBot) (env : Env)
    (event : Event) (message contact user_id phone : json)
    (c : Z) (raw : string) (w : World) :
  incoming event message c raw →
  (is_user_verified env c w).1 = Ok false →
  subscript message "contact" = Ok contact →
  dict_get contact "user_id" JNull = Ok user_id →
  py_eq_int user_id c = true →
  subscript contact "phone_number" = Ok phone →
  normalize_phone (py_str repr_container phone) ∈ allowed_numbers bot →
  put_item_raises env = false →
  lambda_handler repr_container bot env event w
  = (Ok (ok_response "User verified successfully."),
     {| ledger := <[c := {| phone_number := normalize_phone (py_str repr_container phone);
                            verified_at := now_isoformat env |}]> (ledger w);
        tmp := tmp w;
        outbox := outbox w ++
          [SendMessage c
             "✅ You are now verified! You can now use the bot and commands like `/housekeeping`."] |}).
Proof.
  intros Hin Hver Hsub Hget Heq Hphone Hallowed Hput.
  rewrite (lambda_handler_unverified _ _ _ _ _ _ _ _ Hin Hver). unfold try_except.
  rewrite (verification_flow_verifies _ _ _ _ _ _ _ _ _ Hsub Hget Heq Hphone).
  unfold verify_contact, save_verified_user.
  rewrite bool_decide_eq_true_2 by done. run. by rewrite Hput.
Qed.

Lemma incoming_contact_update (chat_id : Z) (phone : string) :
  incoming (contact_update chat_id phone)
    (JObj (<["chat" := JObj {[ "id" := JInt chat_id ]}]>
             {[ "contact" := JObj {[ "user_id" := JInt chat_id;
                                     "phone_number" := JStr phone ]} ]}))
    chat_id "".
Proof.
  eexists _, (JObj {[ "id" := JInt chat_id ]}), (JInt chat_id).
  split; [reflexivity|]. simpl.
  rewrite lookup_singleton_eq, lookup_insert_eq, lookup_singleton_eq.
  rewrite lookup_insert_ne, lookup_singleton_ne by done. done.
Qed.

Lemma own_contact_in_allow_list_is_verified_witness :
  lambda_handler no_repr sample_bot sample_env (contact_update 9 "+919876543210")
    verified_world
  = (Ok (ok_response "User verified successfully."),
     {| ledger := <[9 := {| phone_number := normalize_phone (py_str no_repr (JStr "+919876543210"));
                            verified_at := now_isoformat sample_env |}]>
                    (ledger verified_world);
        tmp := tmp verified_world;
        outbox := outbox verified_world ++
          [SendMessage 9
             "✅ You are now verified! You can now use the bot and commands like `/housekeeping`."] |}).
Proof.
  apply (own_contact_in_allow_list_is_verified no_repr sample_bot sample_env _ _
           (JObj {[ "user_id" := JInt 9; "phone_number" := JStr "+919876543210" ]})
           (JInt 9) (JStr "+919876543210") 9 "" verified_world
           (incoming_contact_update 9 "+919876543210"));
    by vm_compute.
Defined.

(** X19. A chat that is not verified and shares its own contact with a
    number that is not in the allow-list gets the rejection message and the
    status 200; the ledger is not written. *)
Theorem own_contact_not_in_allow_list_is_rejected
    (repr_container : json → string) (bot : TelegramBot) (env : Env)
    (event : Event) (message contact user_id phone : json)
    (c : Z) (raw : string) (w : World) :
  incoming event message c raw →
  (is_user_verified env c w).1 = Ok false →
  subscript message "contact" = Ok contact →
  dict_get contact "user_id" JNull = Ok user_id →
  py_eq_int user_id c = true →
  subscript contact "phone_number" = Ok phone →
  normalize_phone (py_str repr_container phone) ∉ allowed_numbers bot →
  lambda_handler repr_container bot env event w
  = (Ok (ok_response "Verification failed: unrecognized number."),
     posted w (SendMessage c
       "🚫 Verification failed. Your number is not recognized by our system.")).
Proof.
  intros Hin Hver Hsub Hget Heq Hphone Hallowed.
  rewrite (lambda_handler_unverified _ _ _ _ _ _ _ _ Hin Hver). unfold try_except.
  rewrite (verification_flow_verifies _ _ _ _ _ _ _ _ _ Hsub Hget Heq Hphone).
  unfold verify_contact. by rewrite bool_decide_eq_false_2 by done.
Qed.

Lemma own_contact_not_in_allow_list_is_rejected_witness :
  lambda_handler no_repr sample_bot sample_env (contact_update 9 "+911234567890")
    verified_world
  = (Ok (ok_response "Verification failed: unrecognized number."),
     posted verified_world (SendMessage 9
       "🚫 Verification failed. Your number is not recognized by our system.")).
Proof.
  apply (own_contact_not_in_allow_list_is_rejected no_repr sample_bot sample_env _ _
           (JObj {[ "user_id" := JInt 9; "phone_number" := JStr "+911234567890" ]})
           (JInt 9) (JStr "+911234567890") 9 "" verified_world
           (incoming_contact_update 9 "+911234567890"));
    by vm_compute.
Defined.

(* ===================================================================== *)
(** * Further properties of the command dispatcher *)
(* ===================================================================== *)

Section DispatcherFacts.

Variable bot : TelegramBot.
Variable env : Env.

Lemma command_flow_help c t w :
  command_of t = "help" →
  command_flow bot env c t w =
    (Ok (ok_response "Command processed for verified user."),
     posted w (SendMessage c help_text)).
Proof.
  intros Hcmd. unfold command_flow.
  assert (t ≠ "/start") as H1 by (intros ->; by vm_compute in Hcmd).
  assert (t ≠ "") as H2 by (intros ->; by vm_compute in Hcmd).
  rewrite !bool_decide_eq_false_2 by done. rewrite Hcmd. reflexivity.
Qed.

Lemma command_flow_empty c w :
  command_flow bot env c "" w =
    (Ok (ok_response "Non-text message received from verified user."),
     posted w (SendMessage c
       "Please send a text command. You can use `/help` to see the options.")).
Proof. reflexivity. Qed.

Lemma command_flow_document c t w :
  command_of t = "wastemanagementpdf" →
  command_flow bot env c t w =
    (send_document env c WASTE_MANAGEMENT_PDF_KEY
       (Some "Here is your Waste Management Guide.");;
     respond 200 "message" "Command processed for verified user.") w.
Proof.
  intros Hcmd. unfold command_flow.
  assert (t ≠ "/start") as H1 by (intros ->; by vm_compute in Hcmd).
  assert (t ≠ "") as H2 by (intros ->; by vm_compute in Hcmd).
  rewrite !bool_decide_eq_false_2 by done. rewrite Hcmd. reflexivity.
Qed.

End DispatcherFacts.

(** X20. The marker is optional: for every contact category, for the document
    command and for help, the dispatcher does with "/" followed by the
    command exactly what it does with the command alone. *)
Theorem command_marker_is_optional
    (bot : TelegramBot) (env : Env) (c : Z) (cmd : string) (w : World) :
  cmd ∈ contact_categories ∨ cmd = "wastemanagementpdf" ∨ cmd = "help" →
  command_flow bot env c ("/" +:+ cmd) w = command_flow bot env c cmd w.
Proof.
  unfold contact_categories. rewrite !elem_of_cons, elem_of_nil.
  intros [H|[->| ->]]; [|reflexivity..].
  repeat (destruct H as [->|H]; [reflexivity|]). done.
Qed.

Lemma command_marker_is_optional_witness :
  command_flow sample_bot sample_env 5 ("/" +:+ "plumber") verified_world
  = command_flow sample_bot sample_env 5 "plumber" verified_world.
Proof.
  apply (command_marker_is_optional sample_bot sample_env 5 "plumber" verified_world).
  left. unfold contact_categories. rewrite !elem_of_cons. by vm_compute; auto 10.
Defined.

(** X21. A verified chat whose text, stripped and lowercased and without its
    marker, is "help" gets the list of commands as its one reply, with the
    status 200. *)
Theorem help_command_lists_commands
    (repr_container : json → string) (bot : TelegramBot) (env : Env)
    (event : Event) (message : json) (c : Z) (raw : string) (w : World) :
  incoming event message c raw →
  (is_user_verified env c w).1 = Ok true →
  command_of (PyStr.lower (PyStr.strip raw)) = "help" →
  lambda_handler repr_container bot env event w =
    (Ok (ok_response "Command processed for verified user."),
     posted w (SendMessage c help_text)).
Proof.
  intros Hin Hver Hcmd.
  rewrite (lambda_handler_verified _ _ _ _ _ _ _ _ Hin Hver). unfold try_except.
  by rewrite command_flow_help.
Qed.

Lemma help_command_lists_commands_witness :
  lambda_handler no_repr sample_bot sample_env (text_update 5 " /HELP ") verified_world =
    (Ok (ok_response "Command processed for verified user."),
     posted verified_world (SendMessage 5 help_text)).
Proof.
  apply (help_command_lists_commands no_repr sample_bot sample_env _ _ 5 " /HELP "
           verified_world (incoming_text_update 5 " /HELP ")); by vm_compute.
Defined.

(** X22. A verified chat whose message has no text, or a text of white space
    only (a photo, a sticker), is asked to send a text command; the reply
    for an unrecognized command is not used. *)
Theorem empty_text_is_prompted
    (repr_container : json → string) (bot : TelegramBot) (env : Env)
    (event : Event) (message : json) (c : Z) (raw : string) (w : World) :
  incoming event message c raw →
  (is_user_verified env c w).1 = Ok true →
  PyStr.strip raw = "" →
  lambda_handler repr_container bot env event w =
    (Ok (ok_response "Non-text message received from verified user."),
     posted w (SendMessage c
       "Please send a text command. You can use `/help` to see the options.")).
Proof.
  intros Hin Hver Hraw.
  rewrite (lambda_handler_verified _ _ _ _ _ _ _ _ Hin Hver). unfold try_except.
  rewrite Hraw. change (PyStr.lower "") with "". by rewrite command_flow_empty.
Qed.

Lemma incoming_without_text (chat_id : Z) :
  incoming (update (JInt chat_id) {[ "photo" := JArr [] ]})
    (JObj (<["chat" := JObj {[ "id" := JInt chat_id ]}]> {[ "photo" := JArr [] ]}))
    chat_id "".
Proof.
  eexists _, (JObj {[ "id" := JInt chat_id ]}), (JInt chat_id).
  split; [reflexivity|]. simpl.
  rewrite lookup_singleton_eq, lookup_insert_eq, lookup_singleton_eq.
  rewrite lookup_insert_ne, lookup_singleton_ne by done. done.
Qed.

Lemma empty_text_is_prompted_witness :
  lambda_handler no_repr sample_bot sample_env
    (update (JInt 5) {[ "photo" := JArr [] ]}) verified_world =
    (Ok (ok_response "Non-text message received from verified user."),
     posted verified_world (SendMessage 5
       "Please send a text command. You can use `/help` to see the options.")).
Proof.
  apply (empty_text_is_prompted no_repr sample_bot sample_env _ _ 5 ""
           verified_world (incoming_without_text 5)); by vm_compute.
Defined.

(** X23. A verified chat that asks for the document gets the status 200
    whatever the storage and the transport answer, and afterwards nothing is
    left at the scratch path of the document, provided that path did not
    name a directory. *)
Theorem document_command_cleans_up
    (repr_container : json → string) (bot : TelegramBot) (env : Env)
    (event : Event) (message : json) (c : Z) (raw : string) (w : World) :
  incoming event message c raw →
  (is_user_verified env c w).1 = Ok true →
  command_of (PyStr.lower (PyStr.strip raw)) = "wastemanagementpdf" →
  tmp w !! "/tmp/waste_management.pdf" ≠ Some Dir →
  ∃ w', lambda_handler repr_container bot env event w
        = (Ok (ok_response "Command processed for verified user."), w')
        ∧ tmp w' !! "/tmp/waste_management.pdf" = None.
Proof.
  intros Hin Hver Hcmd Hdir.
  rewrite (lambda_handler_verified _ _ _ _ _ _ _ _ Hin Hver). unfold try_except.
  rewrite command_flow_document by done.
  destruct (send_document_result env c WASTE_MANAGEMENT_PDF_KEY
              (Some "Here is your Waste Management Guide.") w Hdir) as (w' & Hrun & Hgone).
  unfold mbind, M_bind. rewrite Hrun. by exists w'.
Qed.

Lemma document_command_cleans_up_witness :
  ∃ w', lambda_handler no_repr sample_bot missing_key_env
          (text_update 5 "WasteManagementPDF") verified_world
        = (Ok (ok_response "Command processed for verified user."), w')
        ∧ tmp w' !! "/tmp/waste_management.pdf" = None.
Proof.
  apply (document_command_cleans_up no_repr sample_bot missing_key_env _ _ 5
           "WasteManagementPDF" verified_world
           (incoming_text_update 5 "WasteManagementPDF")); by vm_compute.
Defined.

(** X24. Verification lasts: after the handler has verified a chat (its own
    contact, a number of the allow-list, a ledger that accepts the write),
    the next update of that chat is dispatched as a command when the ledger
    can be read; its help request is answered with the list of commands and
    no challenge. *)
Theorem verified_chat_is_served_next
    (repr_container : json → string) (bot : TelegramBot) (env env' : Env)
    (event event' : Event) (message message' contact user_id phone : json)
    (c : Z) (raw raw' : string) (w : World) :
  incoming event message c raw →
  (is_user_verified env c w).1 = Ok false →
  subscript message "contact" = Ok contact →
  dict_get contact "user_id" JNull = Ok user_id →
  py_eq_int user_id c = true →
  subscript contact "phone_number" = Ok phone →
  normalize_phone (py_str repr_container phone) ∈ allowed_numbers bot →
  put_item_raises env = false →
  incoming event' message' c raw' →
  get_item_raises env' = false →
  command_of (PyStr.lower (PyStr.strip raw')) = "help" →
  ∃ r w1,
    lambda_handler repr_container bot env event w = (Ok r, w1)
    ∧ lambda_handler repr_container bot env' event' w1
      = (Ok (ok_response "Command processed for verified user."),
         posted w1 (SendMessage c help_text)).
Proof.
  intros Hin Hver Hsub Hget Heq Hphone Hallowed Hput Hin' Hget' Hcmd.
  rewrite (lambda_handler_unverified _ _ _ _ _ _ _ _ Hin Hver). unfold try_except at 1.
  rewrite (verification_flow_verifies _ _ _ _ _ _ _ _ _ Hsub Hget Heq Hphone).
  unfold verify_contact, save_verified_user.
  rewrite bool_decide_eq_true_2 by done. run. rewrite Hput. simpl.
  eexists _, _. split; [reflexivity|].
  rewrite (lambda_handler_verified _ _ _ _ _ _ _ _ Hin').
  - unfold try_except. by rewrite command_flow_help.
  - apply is_user_verified_true. split; [done|]. simpl.
    rewrite lookup_insert_eq. by eexists.
Qed.

Lemma verified_chat_is_served_next_witness :
  ∃ r w1,
    lambda_handler no_repr sample_bot sample_env (contact_update 9 "+919876543210")
      verified_world = (Ok r, w1)
    ∧ lambda_handler no_repr sample_bot sample_env (text_update 9 "help") w1
      = (Ok (ok_response "Command processed for verified user."),
         posted w1 (SendMessage 9 help_text)).
Proof.
  apply (verified_chat_is_served_next no_repr sample_bot sample_env sample_env
           (contact_update 9 "+919876543210") (text_update 9 "help")
           (JObj (<["chat" := JObj {[ "id" := JInt 9 ]}]>
                    {[ "contact" := JObj {[ "user_id" := JInt 9;
                                            "phone_number" := JStr "+919876543210" ]} ]}))
           (JObj (<["chat" := JObj {[ "id" := JInt 9 ]}]> {[ "text" := JStr "help" ]}))
           (JObj {[ "user_id" := JInt 9; "phone_number" := JStr "+919876543210" ]})
           (JInt 9) (JStr "+919876543210") 9 "" "help" verified_world
           (incoming_contact_update 9 "+919876543210"));
    try by vm_compute.
  apply incoming_text_update.
Defined.
